(** * Address-Validation: the CRM / postal bridge of [index.js]

    A shallow embedding of the single-route service of [src/index.js]:
    the SugarCRM token cache ([getSugarAuthToken]), the two CRM calls
    ([getSugarContact], [updateSugarContact]), the USPS token call
    ([getUSPSAccessToken]) and the [/usps/validate] route handler.

    Modelling choices.
    - JSON payloads that the code reads with dynamic property access (the
      contact, the USPS standardization body) are values of [JsVal]; JS
      objects are finite maps from property names to values.
    - Module-level variables ([cachedSugarToken], [sugarTokenExpiresAt])
      live in a record [Vars] that every operation threads through.
    - The outside world (the clock and the five HTTP endpoints) is an oracle
      [World] that answers from the history of effects performed so far; the
      history ([trace]) is part of the machine state, so that "no call is
      made" is a statement about the trace.
    - [async]/[await] is sequential composition in a state-and-exception
      monad; a rejected promise is a thrown [JsError].  One request is run
      at a time: interleavings of concurrent requests are not modelled.
    - The two token endpoints answer bodies of the shape
      [{access_token, expires_in}] ([TokenData]); [req.query.record_id] is a
      string or absent.
    - JS numbers are exact rationals ([Q]); IEEE rounding is abstracted.
    - [console.log] and [console.error] are not modelled. *)

From Stdlib Require Import QArith Lqa.
From stdpp Require Import base option list strings gmap.

Local Open Scope string_scope.
Local Open Scope list_scope.
Local Set Warnings "-register-all".

(** ** JavaScript values *)

Module Js.

(** The JSON-shaped fragment of JS values that the handler can receive. *)
Inductive JsVal : Type :=
| JUndefined
| JNull
| JBool (b : bool)
| JNum (q : Q)
| JStr (s : string)
| JArr (items : list JsVal)
| JObj (fields : gmap string JsVal).

(** Thrown values.  Every value thrown on the paths of [index.js] is an
    [Error] object: an [AxiosError] (rejected HTTP call) or a [TypeError]
    (property read on [undefined]/[null]). *)
Inductive JsError : Type :=
| AxiosError (msg : string)
| TypeError (msg : string).

(** [err.message] *)
Definition message (e : JsError) : string :=
  match e with
  | AxiosError m => m
  | TypeError m => m
  end.

(** [ToBoolean] on strings: only the empty string is falsy. *)
Definition truthy_string (s : string) : bool :=
  match s with
  | EmptyString => false
  | String _ _ => true
  end.

(** [ToBoolean]. *)
Definition truthy (v : JsVal) : bool :=
  match v with
  | JUndefined | JNull => false
  | JBool b => b
  | JNum q => negb (Qeq_bool q 0)
  | JStr s => truthy_string s
  | JArr _ | JObj _ => true
  end.

(** [a || b] (both operands already evaluated; [b] is a literal at every
    use in [index.js]). *)
Definition or (a b : JsVal) : JsVal := if truthy a then a else b.

(** [v === undefined || v === null] *)
Definition nullish (v : JsVal) : bool :=
  match v with
  | JUndefined | JNull => true
  | _ => false
  end.

(** The text V8 puts in the [TypeError] of a property read on a nullish
    base. *)
Definition read_error (base : JsVal) (key : string) : JsError :=
  TypeError ("Cannot read properties of "
             ++ (match base with JNull => "null" | _ => "undefined" end)
             ++ " (reading '" ++ key ++ "')").

(** [v.key] for the property names read by [index.js] (none of which is
    an own or inherited property of a string, number, boolean or array):
    a nullish base throws, an object answers its field or [undefined],
    any other base answers [undefined]. *)
Definition get (v : JsVal) (key : string) : JsError + JsVal :=
  match v with
  | JUndefined | JNull => inl (read_error v key)
  | JObj fields => inr (default JUndefined (fields !! key))
  | _ => inr JUndefined
  end.

(** Sequencing of synchronous expressions that may throw. *)
Definition and_then {A B} (r : JsError + A) (k : A -> JsError + B)
  : JsError + B :=
  match r with
  | inl e => inl e
  | inr a => k a
  end.

(** An object literal [{k1: v1, ..., kn: vn}]. *)
Definition object (kvs : list (string * JsVal)) : JsVal :=
  JObj (list_to_map kvs).

End Js.
Import Js.

(** ** Configuration: [process.env] *)

Record Env : Type := {
  SUGAR_URL : option string;
  SUGAR_USERNAME : option string;
  SUGAR_PASSWORD : option string;
  SUGAR_PLATFORM : option string;
  USPS_CLIENT_ID : option string;
  USPS_CLIENT_SECRET : option string
}.

(** An environment variable as a JS value: unset variables read as
    [undefined]. *)
Definition env_val (x : option string) : JsVal :=
  match x with
  | Some s => JStr s
  | None => JUndefined
  end.

(** An environment variable inside a template literal. *)
Definition env_text (x : option string) : string :=
  match x with
  | Some s => s
  | None => "undefined"
  end.

(** ** Effects: the clock and the outbound HTTP calls *)

(** One constructor per effectful call site of [index.js], with the
    arguments the call site passes. *)
Inductive Event : Type :=
| DateNow
| PostSugarToken (url : string) (body : JsVal)
| PostUspsToken (url : string) (body : JsVal)
| GetSugarContact (url : string) (oauth_token : string)
| PutSugarContact (url : string) (data : JsVal) (oauth_token : string)
| GetUspsStandardization (url : string) (authorization accept : string)
    (params : JsVal).

Definition is_network (e : Event) : bool :=
  match e with
  | DateNow => false
  | _ => true
  end.

Definition is_contact_read (e : Event) : bool :=
  match e with GetSugarContact _ _ => true | _ => false end.

Definition is_contact_update (e : Event) : bool :=
  match e with PutSugarContact _ _ _ => true | _ => false end.

(** Calls to the postal service: its token endpoint and its
    standardization endpoint. *)
Definition is_postal (e : Event) : bool :=
  match e with
  | PostUspsToken _ _ | GetUspsStandardization _ _ _ _ => true
  | _ => false
  end.

(** The network calls of a trace, in order. *)
Definition network_calls (t : list Event) : list Event :=
  List.filter is_network t.

(** [response.data] of a token endpoint: [{access_token, expires_in}]. *)
Record TokenData : Type := {
  access_token : string;
  expires_in : Q
}.

(** The world answers every effect from the effects performed before it.
    A rejected call (transport failure or non-2xx status) is [inl]. *)
Record World : Type := {
  clock_ms : list Event -> Z;
  token_endpoint : list Event -> Event -> JsError + TokenData;
  json_endpoint : list Event -> Event -> JsError + JsVal
}.

(** ** Machine state *)

(** The module-level variables of [index.js]; [None] is [null]. *)
Record Vars : Type := {
  cachedSugarToken : option string;
  sugarTokenExpiresAt : Q
}.

(** [let cachedSugarToken = null; let sugarTokenExpiresAt = 0;] *)
Definition initial_vars : Vars :=
  {| cachedSugarToken := None; sugarTokenExpiresAt := 0 |}.

Record State : Type := {
  vars : Vars;
  trace : list Event
}.

Definition initial_state : State :=
  {| vars := initial_vars; trace := [] |}.

(** ** The monad of [async] functions *)

Inductive Outcome (A : Type) : Type :=
| Ok (a : A)
| Throw (e : JsError).
Arguments Ok {A} a.
Arguments Throw {A} e.

Definition M (A : Type) : Type := World -> State -> Outcome A * State.

Definition ret {A} (a : A) : M A := fun _ st => (Ok a, st).

Definition throw {A} (e : JsError) : M A := fun _ st => (Throw e, st).

Definition bind {A B} (m : M A) (k : A -> M B) : M B :=
  fun w st =>
    match m w st with
    | (Ok a, st') => k a w st'
    | (Throw e, st') => (Throw e, st')
    end.

(** [try { m } catch (err) { h err }] *)
Definition try_catch {A} (m : M A) (h : JsError -> M A) : M A :=
  fun w st =>
    match m w st with
    | (Ok a, st') => (Ok a, st')
    | (Throw e, st') => h e w st'
    end.

Declare Scope js_scope.
Delimit Scope js_scope with js.
Notation "'await' x <- m ; k" := (bind m (fun x => k))
  (at level 10, x name, m at level 100, k at level 200) : js_scope.
Notation "'await_' m ; k" := (bind m (fun _ => k))
  (at level 10, m at level 100, k at level 200) : js_scope.
Notation "'read' x <- e ; k" := (Js.and_then e (fun x => k))
  (at level 10, x name, e at level 100, k at level 200) : js_scope.
Local Open Scope js_scope.

(** Lift a synchronous computation that may throw. *)
Definition lift {A} (r : JsError + A) : M A :=
  match r with
  | inl e => throw e
  | inr a => ret a
  end.

Definition log_event (e : Event) (st : State) : State :=
  {| vars := vars st; trace := trace st ++ [e] |}.

(** [Date.now()] *)
Definition date_now : M Z :=
  fun w st => (Ok (clock_ms w (trace st)), log_event DateNow st).

(** An awaited axios call against a token endpoint, answering
    [response.data]. *)
Definition axios_token (req : Event) : M TokenData :=
  fun w st =>
    match token_endpoint w (trace st) req with
    | inl e => (Throw e, log_event req st)
    | inr d => (Ok d, log_event req st)
    end.

(** An awaited axios call answering [response.data] as JSON. *)
Definition axios_json (req : Event) : M JsVal :=
  fun w st =>
    match json_endpoint w (trace st) req with
    | inl e => (Throw e, log_event req st)
    | inr d => (Ok d, log_event req st)
    end.

Definition read_vars : M Vars := fun _ st => (Ok (vars st), st).

Definition write_vars (v : Vars) : M unit :=
  fun _ st => (Ok tt, {| vars := v; trace := trace st |}).

(** ** HTTP responses of the route *)

Record Reply : Type := {
  status : Z;
  body : string
}.

(** [res.status(code).send(text)]; [res.send(text)] is [send 200 text]. *)
Definition send (code : Z) (text : string) : Reply :=
  {| status := code; body := text |}.

(** ** The CRM token cache *)

Definition Qltb (x y : Q) : bool := negb (Qle_bool y x).

(** The guard of the cache: [cachedSugarToken && now < sugarTokenExpiresAt - 60].
    A [null] slot and an empty-string token are both falsy. *)
Definition cache_usable (v : Vars) (now : Q) : bool :=
  match cachedSugarToken v with
  | Some tok => truthy_string tok && Qltb now (sugarTokenExpiresAt v - 60)
  | None => false
  end.

Section Service.

Variable env : Env.

Definition sugar_token_url : string :=
  env_text (SUGAR_URL env) ++ "/rest/v11_10/oauth2/token".

Definition sugar_token_body : JsVal :=
  object [ ("grant_type", JStr "password");
           ("client_id", JStr "sugar");
           ("client_secret", JStr "");
           ("username", env_val (SUGAR_USERNAME env));
           ("password", env_val (SUGAR_PASSWORD env));
           ("platform", Js.or (env_val (SUGAR_PLATFORM env)) (JStr "custom_api")) ].

Definition sugar_token_request : Event :=
  PostSugarToken sugar_token_url sugar_token_body.

(** Lines 19-33 of [getSugarAuthToken]: the password-grant request and
    the two assignments that follow it. *)
Definition request_sugar_token (now : Q) : M string :=
  await response <- axios_token sugar_token_request;
  await_ write_vars {| cachedSugarToken := Some (access_token response);
                       sugarTokenExpiresAt := now + expires_in response |};
  ret (access_token response).

(** [async function getSugarAuthToken()] *)
Definition getSugarAuthToken : M string :=
  await ms <- date_now;
  let now := (ms # 1000)%Q in
  await v <- read_vars;
  match cachedSugarToken v with
  | Some tok =>
      if truthy_string tok && Qltb now (sugarTokenExpiresAt v - 60)
      then ret tok
      else request_sugar_token now
  | None => request_sugar_token now
  end.

(** [async function getUSPSAccessToken()] *)
Definition usps_token_request : Event :=
  PostUspsToken "https://apis-tem.usps.com/oauth2/v3/token"
    (object [ ("client_id", env_val (USPS_CLIENT_ID env));
              ("client_secret", env_val (USPS_CLIENT_SECRET env));
              ("grant_type", JStr "client_credentials") ]).

Definition getUSPSAccessToken : M string :=
  await res <- axios_token usps_token_request;
  ret (access_token res).

Definition contact_url (id : string) : string :=
  env_text (SUGAR_URL env) ++ "/rest/v11_10/Contacts/" ++ id.

(** [async function getSugarContact(id)] *)
Definition getSugarContact (id : string) : M JsVal :=
  await token <- getSugarAuthToken;
  await res_data <- axios_json (GetSugarContact (contact_url id) token);
  ret res_data.

(** [async function updateSugarContact(id, data)] *)
Definition updateSugarContact (id : string) (data : JsVal) : M unit :=
  await token <- getSugarAuthToken;
  await_ axios_json (PutSugarContact (contact_url id) data token);
  ret tt.

(** *** The route [GET /usps/validate] *)

(** [const params = {...}] (lines 86-92). *)
Definition build_params (contact : JsVal) : JsError + JsVal :=
  read street <- Js.get contact "primary_address_street";
  read secondary <- Js.get contact "mailing_address_2_c";
  read city <- Js.get contact "primary_address_city";
  read state <- Js.get contact "primary_address_state";
  read zip <- Js.get contact "primary_address_postalcode";
  inr (object [ ("streetAddress", Js.or street (JStr ""));
                ("secondaryAddress", Js.or secondary (JStr ""));
                ("city", Js.or city (JStr ""));
                ("state", Js.or state (JStr ""));
                ("ZIPCode", Js.or zip (JStr "")) ]).

(** [!params.key] *)
Definition lacks (params : JsVal) (key : string) : JsError + bool :=
  read v <- Js.get params key;
  inr (negb (truthy v)).

(** The guard of line 97:
    [!params.streetAddress || !params.city || !params.state || !params.ZIPCode]. *)
Definition required_missing (params : JsVal) : JsError + bool :=
  read no_street <- lacks params "streetAddress";
  read no_city <- lacks params "city";
  read no_state <- lacks params "state";
  read no_zip <- lacks params "ZIPCode";
  inr (no_street || no_city || no_state || no_zip).

Definition standardization_request (uspsToken : string) (params : JsVal)
  : Event :=
  GetUspsStandardization
    "https://apis-tem.usps.com/addresses/v3/address-standardization"
    ("Bearer " ++ uspsToken) "application/json" params.

(** The object literal passed to [updateSugarContact] (lines 117-123);
    its property reads on [corrected] are evaluated before the call. *)
Definition build_update (corrected : JsVal) : JsError + JsVal :=
  read street <- Js.get corrected "streetAddressAbbreviation";
  read city <- Js.get corrected "city";
  read state <- Js.get corrected "state";
  read zip <- Js.get corrected "ZIPCode";
  inr (object [ ("primary_address_street", street);
                ("primary_address_city", city);
                ("primary_address_state", state);
                ("primary_address_postalcode", zip);
                ("address_validation_status_c", JStr "Validated") ]).

(** Lines 102-125: the postal calls, the write-back and the success
    response. *)
Definition standardize_and_update (recordId : string) (params : JsVal)
  : M Reply :=
  await uspsToken <- getUSPSAccessToken;
  await usps_data <- axios_json (standardization_request uspsToken params);
  await corrected <- lift (Js.get usps_data "address");
  await update <- lift (build_update corrected);
  await_ updateSugarContact recordId update;
  ret (send 200 ("<h3>Address validated and updated for Contact ID: "
                 ++ recordId ++ "</h3>")).

(** The body of the [try] block (lines 84-125). *)
Definition validate_body (recordId : string) : M Reply :=
  await contact <- getSugarContact recordId;
  await params <- lift (build_params contact);
  await missing <- lift (required_missing params);
  if missing
  then ret (send 400 "Missing one or more required address fields")
  else standardize_and_update recordId params.

(** The [catch] block (lines 126-130). *)
Definition validate_catch (err : JsError) : M Reply :=
  ret (send 500 ("<h3>Address validation failed</h3><pre>"
                 ++ message err ++ "</pre>")).

(** [app.get('/usps/validate', async (req, res) => ...)]; the argument is
    [req.query.record_id], [None] when the parameter is absent. *)
Definition validate (record_id : option string) : M Reply :=
  match record_id with
  | None => ret (send 400 "Missing record_id")
  | Some recordId =>
      if truthy_string recordId
      then try_catch (validate_body recordId) validate_catch
      else ret (send 400 "Missing record_id")
  end.

End Service.

(** ** Auxiliary definitions for the statements *)

(** The reading of the clock that the next [Date.now() / 1000] yields. *)
Definition now_at (w : World) (st : State) : Q :=
  (clock_ms w (trace st) # 1000)%Q.

(** [n] sequential calls [await getSugarAuthToken()], collecting the
    returned tokens. *)
Fixpoint repeat_getSugarAuthToken (env : Env) (n : nat) : M (list string) :=
  match n with
  | O => ret []
  | S k =>
      await tok <- getSugarAuthToken env;
      await rest <- repeat_getSugarAuthToken env k;
      ret (tok :: rest)
  end.

(** The cached token is present (truthy) and inside its validity window at
    clock reading [now]. *)
Definition cache_valid (v : Vars) (now : Q) : Prop :=
  exists tok, cachedSugarToken v = Some tok /\ tok <> ""
              /\ (now < sugarTokenExpiresAt v - 60)%Q.

(** *** Progress of one request through the workflow

    The stages of the [try] block, as runs of the operations above from a
    starting state [st]. *)

Section Workflow.

Variable env : Env.
Variables (id : string) (w : World) (st : State).

(** The contact was fetched, its parameters extracted, and the check of
    line 97 passed. *)
Definition fields_checked (params : JsVal) (st1 : State) : Prop :=
  exists contact,
    getSugarContact env id w st = (Ok contact, st1) /\
    build_params contact = inr params /\
    required_missing params = inr false.

(** ... and the postal token was obtained. *)
Definition postal_authed (params : JsVal) (uspsToken : string) (st2 : State)
  : Prop :=
  exists st1,
    fields_checked params st1 /\
    getUSPSAccessToken env w st1 = (Ok uspsToken, st2).

(** ... and the standardization call answered (2xx) with body [data]. *)
Definition standardized (params data : JsVal) (st3 : State) : Prop :=
  exists uspsToken st2,
    postal_authed params uspsToken st2 /\
    axios_json (standardization_request uspsToken params) w st2
      = (Ok data, st3).

(** A step after the [record_id] check fails with error [e], leaving the
    machine in state [st']. *)
Inductive step_fails : JsError -> State -> Prop :=
| contact_fetch_fails e st1 :
    getSugarContact env id w st = (Throw e, st1) ->
    step_fails e st1
| postal_token_fails params st1 e st2 :
    fields_checked params st1 ->
    getUSPSAccessToken env w st1 = (Throw e, st2) ->
    step_fails e st2
| standardization_fails params uspsToken st2 e st3 :
    postal_authed params uspsToken st2 ->
    axios_json (standardization_request uspsToken params) w st2
      = (Throw e, st3) ->
    step_fails e st3
| contact_update_fails params data st3 corrected update e st4 :
    standardized params data st3 ->
    Js.get data "address" = inr corrected ->
    build_update corrected = inr update ->
    updateSugarContact env id update w st3 = (Throw e, st4) ->
    step_fails e st4.

End Workflow.

(** The standardization body has no [address] object: reading
    [data.address] throws or yields [undefined]/[null]. *)
Definition address_absent (data : JsVal) : Prop :=
  forall v, Js.get data "address" = inr v -> nullish v = true.

(** The five properties of the update object literal. *)
Definition update_fields : gset string :=
  {[ "primary_address_street"; "primary_address_city";
     "primary_address_state"; "primary_address_postalcode";
     "address_validation_status_c" ]}.

(** The parameter of the postal request and the contact field it is
    extracted from (lines 87-91). *)
Definition address_params : list (string * string) :=
  [ ("streetAddress", "primary_address_street");
    ("secondaryAddress", "mailing_address_2_c");
    ("city", "primary_address_city");
    ("state", "primary_address_state");
    ("ZIPCode", "primary_address_postalcode") ].

(** An operation only ever appends to the trace. *)
Definition grows {A} (m : M A) : Prop :=
  forall w st, exists evs, trace (m w st).2 = trace st ++ evs.

(** ** Auxiliary definitions for the further properties *)

Definition is_sugar_token_call (e : Event) : bool :=
  match e with PostSugarToken _ _ => true | _ => false end.

Definition is_usps_token_call (e : Event) : bool :=
  match e with PostUspsToken _ _ => true | _ => false end.

Definition is_standardization_call (e : Event) : bool :=
  match e with GetUspsStandardization _ _ _ _ => true | _ => false end.

(** [n] sequential calls [await m()], collecting the results; the sequence
    stops at the first call that throws. *)
Fixpoint repeat_call {A} (m : M A) (n : nat) : M (list A) :=
  match n with
  | O => ret []
  | S k =>
      await a <- m;
      await rest <- repeat_call m k;
      ret (a :: rest)
  end.

(** The life of the process: requests to [/usps/validate] served one after
    the other, starting from whatever the module variables hold. *)
Fixpoint serve (env : Env) (requests : list (option string))
  : M (list Reply) :=
  match requests with
  | [] => ret []
  | record_id :: rest =>
      await reply <- validate env record_id;
      await replies <- serve env rest;
      ret (reply :: replies)
  end.

(** The cache is in its initial state, or both of its variables were
    written from one answer of the CRM token endpoint recorded in the
    trace: the token is that answer's [access_token] and the expiry is the
    clock reading of that call plus that answer's [expires_in]. *)
Definition cache_from_one_fetch (env : Env) (w : World) (st : State) : Prop :=
  vars st = initial_vars \/
  exists pre post d,
    trace st = pre ++ DateNow :: sugar_token_request env :: post /\
    token_endpoint w (pre ++ [DateNow]) (sugar_token_request env) = inr d /\
    vars st = {| cachedSugarToken := Some (access_token d);
                 sugarTokenExpiresAt :=
                   (clock_ms w pre # 1000) + expires_in d |}.

(** A property of machine states that appending an event cannot break. *)
Definition stable (I : World -> State -> Prop) : Prop :=
  forall w e st, I w st -> I w (log_event e st).

(** An operation keeps a property of machine states. *)
Definition keeps (I : World -> State -> Prop) {A} (m : M A) : Prop :=
  forall w st, I w st -> I w (m w st).2.

(** Every way the [try] block (lines 84-125) can end, with the state it
    ends in. *)
Inductive try_block_run (env : Env) (id : string) (w : World) (st : State)
  : Outcome Reply -> State -> Prop :=
| run_fetch_failed e st1 :
    getSugarContact env id w st = (Throw e, st1) ->
    try_block_run env id w st (Throw e) st1
| run_extraction_failed contact st1 e :
    getSugarContact env id w st = (Ok contact, st1) ->
    build_params contact = inl e ->
    try_block_run env id w st (Throw e) st1
| run_fields_missing contact st1 params :
    getSugarContact env id w st = (Ok contact, st1) ->
    build_params contact = inr params ->
    required_missing params = inr true ->
    try_block_run env id w st
      (Ok (send 400 "Missing one or more required address fields")) st1
| run_postal_token_failed params st1 e st2 :
    fields_checked env id w st params st1 ->
    getUSPSAccessToken env w st1 = (Throw e, st2) ->
    try_block_run env id w st (Throw e) st2
| run_standardization_failed params uspsToken st2 e st3 :
    postal_authed env id w st params uspsToken st2 ->
    axios_json (standardization_request uspsToken params) w st2
      = (Throw e, st3) ->
    try_block_run env id w st (Throw e) st3
| run_body_unreadable params data st3 e :
    standardized env id w st params data st3 ->
    Js.get data "address" = inl e ->
    try_block_run env id w st (Throw e) st3
| run_address_unreadable params data st3 corrected e :
    standardized env id w st params data st3 ->
    Js.get data "address" = inr corrected ->
    build_update corrected = inl e ->
    try_block_run env id w st (Throw e) st3
| run_update_failed params data st3 corrected update e st4 :
    standardized env id w st params data st3 ->
    Js.get data "address" = inr corrected ->
    build_update corrected = inr update ->
    updateSugarContact env id update w st3 = (Throw e, st4) ->
    try_block_run env id w st (Throw e) st4
| run_updated params data st3 corrected update st4 :
    standardized env id w st params data st3 ->
    Js.get data "address" = inr corrected ->
    build_update corrected = inr update ->
    updateSugarContact env id update w st3 = (Ok tt, st4) ->
    try_block_run env id w st
      (Ok (send 200 ("<h3>Address validated and updated for Contact ID: "
                     ++ id ++ "</h3>"))) st4.

(** The events of one [getSugarAuthToken] call: the clock read, followed
    by the token request on a cache miss. *)
Definition auth_events (env : Env) (evs : list Event) : Prop :=
  evs = [DateNow] \/ evs = [DateNow; sugar_token_request env].

(** The events of a request that runs to the end of the [try] block. *)
Definition complete_request_events (env : Env) (id : string)
    (evs : list Event) : Prop :=
  exists auth1 tok1 uspsToken params auth2 update tok2,
    auth_events env auth1 /\
    auth_events env auth2 /\
    evs = auth1
          ++ [ GetSugarContact (contact_url env id) tok1;
               usps_token_request env;
               standardization_request uspsToken params ]
          ++ auth2
          ++ [ PutSugarContact (contact_url env id) update tok2 ].

(** ** Concrete scenarios *)

Module Scenario.

Definition env0 : Env :=
  {| SUGAR_URL := Some "https://crm.example";
     SUGAR_USERNAME := Some "admin";
     SUGAR_PASSWORD := Some "secret";
     SUGAR_PLATFORM := None;
     USPS_CLIENT_ID := Some "client";
     USPS_CLIENT_SECRET := Some "key" |}.

(** A world whose clock advances one second per effect and whose endpoints
    answer the same way at every call. *)
Definition world (sugar_token : JsError + TokenData)
    (contact standardization update : JsError + JsVal) : World :=
  {| clock_ms := fun t => (1000 * Z.of_nat (length t))%Z;
     token_endpoint := fun _ req =>
       match req with
       | PostSugarToken _ _ => sugar_token
       | _ => inr {| access_token := "usps-token"; expires_in := 28800 |}
       end;
     json_endpoint := fun _ req =>
       match req with
       | GetSugarContact _ _ => contact
       | PutSugarContact _ _ _ => update
       | _ => standardization
       end |}.

Definition sugar_token_ok : JsError + TokenData :=
  inr {| access_token := "crm-token"; expires_in := 3600 |}.

Definition contact_123 : JsVal :=
  object [ ("id", JStr "123");
           ("primary_address_street", JStr "1600 pennsylvania avenue nw");
           ("primary_address_city", JStr "washington");
           ("primary_address_state", JStr "DC");
           ("primary_address_postalcode", JStr "20500") ].

(** Record 456: the state field is empty. *)
Definition contact_456 : JsVal :=
  object [ ("id", JStr "456");
           ("primary_address_street", JStr "1 Main St");
           ("primary_address_city", JStr "Springfield");
           ("primary_address_state", JStr "");
           ("primary_address_postalcode", JStr "62701") ].

Definition corrected_123 : JsVal :=
  object [ ("streetAddressAbbreviation", JStr "1600 PENNSYLVANIA AVE NW");
           ("city", JStr "WASHINGTON");
           ("state", JStr "DC");
           ("ZIPCode", JStr "20500") ].

Definition standardization_123 : JsVal :=
  object [ ("address", corrected_123) ].

Definition params_123 : JsVal :=
  object [ ("streetAddress", JStr "1600 pennsylvania avenue nw");
           ("secondaryAddress", JStr "");
           ("city", JStr "washington");
           ("state", JStr "DC");
           ("ZIPCode", JStr "20500") ].

Definition update_123 : JsVal :=
  object [ ("primary_address_street", JStr "1600 PENNSYLVANIA AVE NW");
           ("primary_address_city", JStr "WASHINGTON");
           ("primary_address_state", JStr "DC");
           ("primary_address_postalcode", JStr "20500");
           ("address_validation_status_c", JStr "Validated") ].

(** Scenario A: everything succeeds. *)
Definition world_A : World :=
  world sugar_token_ok (inr contact_123) (inr standardization_123) (inr JNull).

(** Scenario B: the contact has an empty state field. *)
Definition world_B : World :=
  world sugar_token_ok (inr contact_456) (inr standardization_123) (inr JNull).

(** Scenario C: the CRM contact fetch answers 404. *)
Definition not_found : JsError :=
  AxiosError "Request failed with status code 404".

Definition world_C : World :=
  world sugar_token_ok (inl not_found) (inr standardization_123) (inr JNull).

(** The standardization call answers 200 with a body without [address]. *)
Definition world_D : World :=
  world sugar_token_ok (inr contact_123)
    (inr (object [ ("error", JStr "no match") ])) (inr JNull).

(** The CRM token endpoint rejects the credentials. *)
Definition unauthorized : JsError :=
  AxiosError "Request failed with status code 401".

Definition world_E : World :=
  world (inl unauthorized) (inr contact_123) (inr standardization_123)
    (inr JNull).

(** A state with a token cached until epoch second 3600. *)
Definition cached_state : State :=
  {| vars := {| cachedSugarToken := Some "old-token";
                sugarTokenExpiresAt := 3600 |};
     trace := [] |}.

(** Scenario A, stage by stage. *)
Definition st1_A : State := (getSugarContact env0 "123" world_A initial_state).2.
Definition st2_A : State := (getUSPSAccessToken env0 world_A st1_A).2.
Definition st3_A : State :=
  (axios_json (standardization_request "usps-token" params_123) world_A st2_A).2.
Definition st4_A : State :=
  (updateSugarContact env0 "123" update_123 world_A st3_A).2.

End Scenario.

(** Further scenarios. *)

Module Edge.

Import Scenario.


(** The CRM answers the contact read with the JSON body [null]. *)
Definition world_null_contact : World :=
  world sugar_token_ok (inr JNull) (inr standardization_123) (inr JNull).

(** The CRM answers the contact read with a page of text. *)
Definition world_text_contact : World :=
  world sugar_token_ok (inr (JStr "<html>maintenance</html>"))
    (inr standardization_123) (inr JNull).

(** The state after a first token fetch in scenario A and in the
    short-lived scenario. *)
Definition fetched_A : State :=
  (getSugarAuthToken env0 world_A initial_state).2.


End Edge.

(** * Properties *)

Section TokenCache.

Variable env : Env.

Lemma truthy_string_nonempty (s : string) :
  truthy_string s = true <-> s <> "".
Proof. destruct s; simpl; split; congruence. Qed.

Lemma Qltb_lt (x y : Q) : Qltb x y = true <-> (x < y)%Q.
Proof.
  unfold Qltb. rewrite negb_true_iff. split.
  - intros H. apply Qnot_le_lt. intros Hle.
    apply Qle_bool_iff in Hle. congruence.
  - intros H. destruct (Qle_bool y x) eqn:E; [|reflexivity].
    apply Qle_bool_iff in E. exfalso. exact (Qlt_not_le _ _ H E).
Qed.

Lemma cache_usable_valid (v : Vars) (now : Q) :
  cache_usable v now = true <-> cache_valid v now.
Proof.
  unfold cache_usable, cache_valid. split.
  - destruct (cachedSugarToken v) as [tok|]; [|discriminate].
    rewrite andb_true_iff, truthy_string_nonempty, Qltb_lt.
    intros [Htok Hlt]. exists tok. auto.
  - intros (tok & -> & Htok & Hlt).
    rewrite andb_true_iff, truthy_string_nonempty, Qltb_lt. auto.
Qed.

Lemma cache_usable_invalid (v : Vars) (now : Q) :
  cache_usable v now = false <-> ~ cache_valid v now.
Proof.
  rewrite <- cache_usable_valid. destruct (cache_usable v now); split;
    congruence.
Qed.

(** What the request path (lines 19-33) does, by the answer of the
    endpoint. *)
Lemma request_sugar_token_run (now : Q) (w : World) (st : State) :
  request_sugar_token env now w st =
  match token_endpoint w (trace st) (sugar_token_request env) with
  | inl e => (Throw e, log_event (sugar_token_request env) st)
  | inr d =>
      (Ok (access_token d),
       {| vars := {| cachedSugarToken := Some (access_token d);
                     sugarTokenExpiresAt := now + expires_in d |};
          trace := trace st ++ [sugar_token_request env] |})
  end.
Proof.
  unfold request_sugar_token, bind, axios_token, write_vars, ret.
  destruct (token_endpoint w (trace st) (sugar_token_request env));
    reflexivity.
Qed.

Lemma getSugarAuthToken_hit (w : World) (st : State) (tok : string) :
  cachedSugarToken (vars st) = Some tok ->
  cache_usable (vars st) (now_at w st) = true ->
  getSugarAuthToken env w st = (Ok tok, log_event DateNow st).
Proof.
  intros Hc Hu. unfold cache_usable in Hu. rewrite Hc in Hu.
  unfold getSugarAuthToken, bind, date_now, read_vars.
  cbn [vars log_event]. fold (now_at w st). rewrite Hc, Hu. reflexivity.
Qed.

Lemma getSugarAuthToken_miss (w : World) (st : State) :
  cache_usable (vars st) (now_at w st) = false ->
  getSugarAuthToken env w st =
  request_sugar_token env (now_at w st) w (log_event DateNow st).
Proof.
  intros Hu. unfold cache_usable in Hu.
  unfold getSugarAuthToken, bind, date_now, read_vars.
  cbn [vars log_event]. fold (now_at w st).
  destruct (cachedSugarToken (vars st)); [rewrite Hu|]; reflexivity.
Qed.

(** The guard tests the slot for truthiness: an empty-string token counts
    as no token, whatever its expiry. *)
Lemma getSugarAuthToken_empty_token_refetches (w : World) (st : State) :
  cachedSugarToken (vars st) = Some "" ->
  getSugarAuthToken env w st =
  request_sugar_token env (now_at w st) w (log_event DateNow st).
Proof.
  intros Hc. apply getSugarAuthToken_miss. unfold cache_usable.
  rewrite Hc. reflexivity.
Qed.

Lemma getSugarAuthToken_miss_run (w : World) (st : State) :
  ~ cache_valid (vars st) (now_at w st) ->
  getSugarAuthToken env w st =
  match token_endpoint w (trace st ++ [DateNow]) (sugar_token_request env) with
  | inl e =>
      (Throw e,
       {| vars := vars st;
          trace := trace st ++ [DateNow; sugar_token_request env] |})
  | inr d =>
      (Ok (access_token d),
       {| vars := {| cachedSugarToken := Some (access_token d);
                     sugarTokenExpiresAt := now_at w st + expires_in d |};
          trace := trace st ++ [DateNow; sugar_token_request env] |})
  end.
Proof.
  intros Hnv. apply cache_usable_invalid in Hnv.
  rewrite (getSugarAuthToken_miss _ _ Hnv), request_sugar_token_run.
  unfold log_event. cbn [trace vars]. rewrite <- app_assoc. reflexivity.
Qed.

Lemma getSugarAuthToken_hit_run (w : World) (st : State) :
  cache_valid (vars st) (now_at w st) ->
  exists tok, cachedSugarToken (vars st) = Some tok /\
              getSugarAuthToken env w st = (Ok tok, log_event DateNow st).
Proof.
  intros Hv. pose proof Hv as (tok & Hc & _ & _).
  apply cache_usable_valid in Hv. exists tok. split; [exact Hc|].
  now apply getSugarAuthToken_hit.
Qed.

Lemma network_calls_app (t1 t2 : list Event) :
  network_calls (t1 ++ t2) = network_calls t1 ++ network_calls t2.
Proof. unfold network_calls. apply List.filter_app. Qed.

Lemma sugar_token_body_grant :
  Js.get (sugar_token_body env) "grant_type" = inr (JStr "password").
Proof. reflexivity. Qed.

(** C1. [getSugarAuthToken]: when a cached token is present (the slot is
    truthy: it holds a non-empty string) and
    [now < sugarTokenExpiresAt - 60], the call returns the cached token and
    the only effect is the clock read (no network call).  Otherwise the call
    issues the password-grant token request; when that request answers
    [{access_token, expires_in}], the cache holds [access_token], the expiry
    is [now + expires_in], and [access_token] is returned. *)
Theorem getSugarAuthToken_cache_or_fetch (w : World) (st : State) :
  let now := now_at w st in
  (forall tok,
      cachedSugarToken (vars st) = Some tok -> tok <> "" ->
      (now < sugarTokenExpiresAt (vars st) - 60)%Q ->
      getSugarAuthToken env w st = (Ok tok, log_event DateNow st) /\
      network_calls (trace (log_event DateNow st)) = network_calls (trace st))
  /\
  (~ cache_valid (vars st) now ->
   trace (getSugarAuthToken env w st).2
     = trace st ++ [DateNow; sugar_token_request env] /\
   Js.get (sugar_token_body env) "grant_type" = inr (JStr "password") /\
   forall d,
     token_endpoint w (trace st ++ [DateNow]) (sugar_token_request env)
       = inr d ->
     getSugarAuthToken env w st =
     (Ok (access_token d),
      {| vars := {| cachedSugarToken := Some (access_token d);
                    sugarTokenExpiresAt := now + expires_in d |};
         trace := trace st ++ [DateNow; sugar_token_request env] |})).
Proof.
  intros now. split.
  - intros tok Hc Htok Hlt. split.
    + apply getSugarAuthToken_hit; [exact Hc|].
      apply cache_usable_valid. exists tok. auto.
    + unfold log_event. cbn [trace]. rewrite network_calls_app. cbn.
      apply app_nil_r.
  - intros Hnv. rewrite (getSugarAuthToken_miss_run _ _ Hnv).
    split; [|split].
    + destruct (token_endpoint _ _ _); reflexivity.
    + apply sugar_token_body_grant.
    + intros d ->. reflexivity.
Qed.

Lemma repeat_hits (w : World) (tok : string) (n : nat) :
  tok <> "" ->
  forall st,
    cachedSugarToken (vars st) = Some tok ->
    (forall k, (k < n)%nat ->
       (now_at w {| vars := vars st;
                    trace := trace st ++ replicate k DateNow |}
        < sugarTokenExpiresAt (vars st) - 60)%Q) ->
    repeat_getSugarAuthToken env n w st =
    (Ok (replicate n tok),
     {| vars := vars st; trace := trace st ++ replicate n DateNow |}).
Proof.
  intros Htok. induction n as [|n IH]; intros st Hc Hwin.
  - cbn. unfold ret. rewrite app_nil_r. destruct st; reflexivity.
  - cbn [repeat_getSugarAuthToken]. unfold bind at 1.
    rewrite (getSugarAuthToken_hit w st tok Hc).
    + unfold bind at 1. rewrite IH.
      * unfold ret, log_event. cbn [vars trace replicate].
        rewrite <- app_assoc. reflexivity.
      * exact Hc.
      * intros k Hk. unfold log_event. cbn [vars trace].
        rewrite <- app_assoc. apply (Hwin (S k)). lia.
    + apply cache_usable_valid. exists tok. split; [exact Hc|].
      split; [exact Htok|].
      specialize (Hwin O ltac:(lia)). cbn [replicate] in Hwin.
      rewrite app_nil_r in Hwin. exact Hwin.
Qed.

(** C7. While the cached token is inside its validity window
    ([now < sugarTokenExpiresAt - 60] at each of the [n] clock readings),
    [n] repeated calls return the same cached token each time, leave the
    cache untouched and perform clock reads only.  A following call whose
    clock reading is past the window (minus margin) issues a new token
    request, and on its success the cache holds the new token and expiry. *)
Theorem getSugarAuthToken_idempotent_in_window
    (w : World) (st : State) (tok : string) (n : nat) :
  cachedSugarToken (vars st) = Some tok -> tok <> "" ->
  (forall k, (k < n)%nat ->
     (now_at w {| vars := vars st; trace := trace st ++ replicate k DateNow |}
      < sugarTokenExpiresAt (vars st) - 60)%Q) ->
  let st_n := {| vars := vars st; trace := trace st ++ replicate n DateNow |} in
  repeat_getSugarAuthToken env n w st = (Ok (replicate n tok), st_n) /\
  network_calls (trace st_n) = network_calls (trace st) /\
  (~ (now_at w st_n < sugarTokenExpiresAt (vars st) - 60)%Q ->
   trace (getSugarAuthToken env w st_n).2
     = trace st_n ++ [DateNow; sugar_token_request env] /\
   forall d,
     token_endpoint w (trace st_n ++ [DateNow]) (sugar_token_request env)
       = inr d ->
     getSugarAuthToken env w st_n =
     (Ok (access_token d),
      {| vars := {| cachedSugarToken := Some (access_token d);
                    sugarTokenExpiresAt := now_at w st_n + expires_in d |};
         trace := trace st_n ++ [DateNow; sugar_token_request env] |})).
Proof.
  intros Hc Htok Hwin st_n. split; [|split].
  - now apply repeat_hits.
  - subst st_n. cbn [trace]. rewrite network_calls_app.
    replace (network_calls (replicate n DateNow)) with (@nil Event).
    + apply app_nil_r.
    + clear. induction n as [|n IH]; [reflexivity|exact IH].
  - intros Hpast.
    assert (Hnv : ~ cache_valid (vars st_n) (now_at w st_n)).
    { intros (tok' & _ & _ & Hlt). exact (Hpast Hlt). }
    rewrite (getSugarAuthToken_miss_run _ _ Hnv). split.
    + destruct (token_endpoint _ _ _); reflexivity.
    + intros d ->. reflexivity.
Qed.

(** C8. [getSugarAuthToken] is atomic on error: whenever the call throws,
    the thrown error is the one of the token request and both cache
    variables keep their values; a failing request does make the call
    throw; and the cache changes only when the request succeeded. *)
Theorem getSugarAuthToken_atomic_on_error (w : World) (st : State) :
  (forall e st',
      getSugarAuthToken env w st = (Throw e, st') ->
      vars st' = vars st /\
      token_endpoint w (trace st ++ [DateNow]) (sugar_token_request env)
        = inl e)
  /\
  (forall e,
      ~ cache_valid (vars st) (now_at w st) ->
      token_endpoint w (trace st ++ [DateNow]) (sugar_token_request env)
        = inl e ->
      getSugarAuthToken env w st =
      (Throw e,
       {| vars := vars st;
          trace := trace st ++ [DateNow; sugar_token_request env] |}))
  /\
  (vars (getSugarAuthToken env w st).2 <> vars st ->
   exists d,
     token_endpoint w (trace st ++ [DateNow]) (sugar_token_request env)
       = inr d /\
     (getSugarAuthToken env w st).1 = Ok (access_token d)).
Proof.
  destruct (cache_usable (vars st) (now_at w st)) eqn:Hu.
  - apply cache_usable_valid in Hu.
    destruct (getSugarAuthToken_hit_run w st Hu) as (tok & Hc & Hrun).
    split; [|split].
    + intros e st' H. rewrite Hrun in H. discriminate.
    + intros e Hnv. contradiction.
    + rewrite Hrun. cbn. intros H. contradiction.
  - apply cache_usable_invalid in Hu.
    rewrite (getSugarAuthToken_miss_run w st Hu).
    destruct (token_endpoint w (trace st ++ [DateNow])
                (sugar_token_request env)) as [e0|d].
    + split; [|split].
      * intros e st' H. inversion H; subst. split; reflexivity.
      * intros e _ H. inversion H; subst. reflexivity.
      * cbn. intros H. contradiction.
    + split; [|split].
      * intros e st' H. discriminate.
      * intros e _ H. discriminate.
      * intros _. exists d. split; reflexivity.
Qed.

End TokenCache.

Section Handler.

Variable env : Env.

(** *** Stepping through [await] *)

Lemma bind_ok {A B} (m : M A) (k : A -> M B) w st a st' :
  m w st = (Ok a, st') -> bind m k w st = k a w st'.
Proof. intros H. unfold bind. rewrite H. reflexivity. Qed.

Lemma bind_throw {A B} (m : M A) (k : A -> M B) w st e st' :
  m w st = (Throw e, st') -> bind m k w st = (Throw e, st').
Proof. intros H. unfold bind. rewrite H. reflexivity. Qed.

Lemma lift_inr {A} (r : JsError + A) a w st :
  r = inr a -> lift r w st = (Ok a, st).
Proof. intros ->. reflexivity. Qed.

Lemma lift_inl {A} (r : JsError + A) e w st :
  r = inl e -> lift r w st = (Throw e, st).
Proof. intros ->. reflexivity. Qed.

Lemma axios_json_run (req : Event) w st :
  axios_json req w st =
  match json_endpoint w (trace st) req with
  | inl e => (Throw e, log_event req st)
  | inr d => (Ok d, log_event req st)
  end.
Proof. reflexivity. Qed.

Lemma axios_json_trace (req : Event) w st r st' :
  axios_json req w st = (r, st') ->
  vars st' = vars st /\ trace st' = trace st ++ [req].
Proof.
  rewrite axios_json_run.
  destruct (json_endpoint w (trace st) req); intros [= <- <-]; auto.
Qed.

(** *** What each operation may send *)

Lemma getSugarAuthToken_trace w st r st' :
  getSugarAuthToken env w st = (r, st') ->
  trace st' = trace st ++ [DateNow] \/
  trace st' = trace st ++ [DateNow; sugar_token_request env].
Proof.
  destruct (cache_usable (vars st) (now_at w st)) eqn:Hu.
  - apply cache_usable_valid in Hu.
    destruct (getSugarAuthToken_hit_run env w st Hu) as (tok & _ & ->).
    intros [= <- <-]. left. reflexivity.
  - apply cache_usable_invalid in Hu.
    rewrite (getSugarAuthToken_miss_run env w st Hu).
    destruct (token_endpoint _ _ _); intros [= <- <-]; right; reflexivity.
Qed.

Lemma getSugarContact_inv id w st r st1 :
  getSugarContact env id w st = (r, st1) ->
  (exists e, r = Throw e /\ getSugarAuthToken env w st = (Throw e, st1)) \/
  (exists tok st0,
      getSugarAuthToken env w st = (Ok tok, st0) /\
      st1 = log_event (GetSugarContact (contact_url env id) tok) st0 /\
      match json_endpoint w (trace st0) (GetSugarContact (contact_url env id) tok)
      with
      | inl e => r = Throw e
      | inr d => r = Ok d
      end).
Proof.
  unfold getSugarContact.
  destruct (getSugarAuthToken env w st) as [[tok|e] st0] eqn:Htok.
  - rewrite (bind_ok _ _ _ _ _ _ Htok). unfold bind. rewrite axios_json_run.
    intros H. right. exists tok, st0. split; [reflexivity|].
    destruct (json_endpoint w (trace st0) _); inversion H; subst; auto.
  - rewrite (bind_throw _ _ _ _ _ _ Htok). intros [= <- <-].
    left. exists e. auto.
Qed.

Lemma updateSugarContact_inv id data w st r st1 :
  updateSugarContact env id data w st = (r, st1) ->
  (exists e, r = Throw e /\ getSugarAuthToken env w st = (Throw e, st1)) \/
  (exists tok st0,
      getSugarAuthToken env w st = (Ok tok, st0) /\
      st1 = log_event (PutSugarContact (contact_url env id) data tok) st0 /\
      match json_endpoint w (trace st0)
              (PutSugarContact (contact_url env id) data tok)
      with
      | inl e => r = Throw e
      | inr _ => r = Ok tt
      end).
Proof.
  unfold updateSugarContact.
  destruct (getSugarAuthToken env w st) as [[tok|e] st0] eqn:Htok.
  - rewrite (bind_ok _ _ _ _ _ _ Htok). unfold bind. rewrite axios_json_run.
    intros H. right. exists tok, st0. split; [reflexivity|].
    destruct (json_endpoint w (trace st0) _); inversion H; subst; auto.
  - rewrite (bind_throw _ _ _ _ _ _ Htok). intros [= <- <-].
    left. exists e. auto.
Qed.

Lemma getUSPSAccessToken_inv w st r st1 :
  getUSPSAccessToken env w st = (r, st1) ->
  st1 = log_event (usps_token_request env) st /\
  match token_endpoint w (trace st) (usps_token_request env) with
  | inl e => r = Throw e
  | inr d => r = Ok (access_token d)
  end.
Proof.
  unfold getUSPSAccessToken, bind, axios_token, ret.
  destruct (token_endpoint w (trace st) _); intros [= <- <-]; auto.
Qed.

Lemma existsb_app_false {A} (f : A -> bool) (l1 l2 : list A) :
  existsb f l1 = false -> existsb f l2 = false ->
  existsb f (l1 ++ l2) = false.
Proof. intros H1 H2. rewrite existsb_app, H1, H2. reflexivity. Qed.

Lemma getSugarContact_effects id w st r st1 :
  getSugarContact env id w st = (r, st1) ->
  exists evs,
    trace st1 = trace st ++ evs /\
    existsb is_postal evs = false /\
    existsb is_contact_update evs = false /\
    (forall contact, r = Ok contact -> existsb is_contact_read evs = true).
Proof.
  intros H. apply getSugarContact_inv in H.
  destruct H as [(e & -> & Htok)|(tok & st0 & Htok & -> & Hr)];
    apply getSugarAuthToken_trace in Htok.
  - destruct Htok as [Ht|Ht]; eexists; (split; [exact Ht|]);
      repeat split; try reflexivity; discriminate.
  - unfold log_event; cbn [trace].
    destruct Htok as [-> | ->]; rewrite <- app_assoc; eexists;
      (split; [reflexivity|]); repeat split; reflexivity.
Qed.

Lemma updateSugarContact_ok id data w st st1 :
  updateSugarContact env id data w st = (Ok tt, st1) ->
  exists pre tok,
    trace st1
      = trace st ++ pre ++ [PutSugarContact (contact_url env id) data tok] /\
    existsb is_contact_update pre = false.
Proof.
  intros H. apply updateSugarContact_inv in H.
  destruct H as [(e & He & _)|(tok & st0 & Htok & -> & _)]; [discriminate|].
  apply getSugarAuthToken_trace in Htok. unfold log_event; cbn [trace].
  destruct Htok as [-> | ->]; rewrite <- app_assoc;
    eexists; exists tok; split; reflexivity.
Qed.

(** *** The extracted parameters *)

Lemma build_params_inv contact params :
  build_params contact = inr params ->
  exists street secondary city state zip,
    Js.get contact "primary_address_street" = inr street /\
    Js.get contact "mailing_address_2_c" = inr secondary /\
    Js.get contact "primary_address_city" = inr city /\
    Js.get contact "primary_address_state" = inr state /\
    Js.get contact "primary_address_postalcode" = inr zip /\
    params = object [ ("streetAddress", Js.or street (JStr ""));
                      ("secondaryAddress", Js.or secondary (JStr ""));
                      ("city", Js.or city (JStr ""));
                      ("state", Js.or state (JStr ""));
                      ("ZIPCode", Js.or zip (JStr "")) ].
Proof.
  unfold build_params, Js.and_then, Js.get.
  destruct contact; try discriminate; intros [= <-];
    do 5 eexists; repeat split; reflexivity.
Qed.

Lemma params_get a b c d e :
  let params := object [ ("streetAddress", a); ("secondaryAddress", b);
                         ("city", c); ("state", d); ("ZIPCode", e) ] in
  Js.get params "streetAddress" = inr a /\
  Js.get params "secondaryAddress" = inr b /\
  Js.get params "city" = inr c /\
  Js.get params "state" = inr d /\
  Js.get params "ZIPCode" = inr e.
Proof. repeat split; reflexivity. Qed.

Lemma required_missing_params a b c d e :
  required_missing (object [ ("streetAddress", a); ("secondaryAddress", b);
                             ("city", c); ("state", d); ("ZIPCode", e) ])
  = inr (negb (truthy a) || negb (truthy c) || negb (truthy d)
         || negb (truthy e)).
Proof. reflexivity. Qed.

(** *** The route *)

Lemma validate_nonempty id w st :
  id <> "" ->
  validate env (Some id) w st =
  try_catch (validate_body env id) validate_catch w st.
Proof.
  intros Hid. unfold validate.
  apply truthy_string_nonempty in Hid. rewrite Hid. reflexivity.
Qed.

Lemma try_catch_ok {A} (m : M A) h w st a st' :
  m w st = (Ok a, st') -> try_catch m h w st = (Ok a, st').
Proof. intros H. unfold try_catch. rewrite H. reflexivity. Qed.

Lemma try_catch_throw {A} (m : M A) h w st e st' :
  m w st = (Throw e, st') -> try_catch m h w st = h e w st'.
Proof. intros H. unfold try_catch. rewrite H. reflexivity. Qed.

Lemma validate_body_checked id w st params st1 :
  fields_checked env id w st params st1 ->
  validate_body env id w st = standardize_and_update env id params w st1.
Proof.
  intros (contact & Hc & Hp & Hm). unfold validate_body.
  rewrite (bind_ok _ _ _ _ _ _ Hc).
  rewrite (bind_ok _ _ _ _ _ _ (lift_inr _ _ w st1 Hp)).
  rewrite (bind_ok _ _ _ _ _ _ (lift_inr _ _ w st1 Hm)).
  reflexivity.
Qed.

Lemma validate_body_authed id w st params uspsToken st2 :
  postal_authed env id w st params uspsToken st2 ->
  validate_body env id w st =
  bind (axios_json (standardization_request uspsToken params))
    (fun usps_data =>
       await corrected <- lift (Js.get usps_data "address");
       await update <- lift (build_update corrected);
       await_ updateSugarContact env id update;
       ret (send 200 ("<h3>Address validated and updated for Contact ID: "
                      ++ id ++ "</h3>"))) w st2.
Proof.
  intros (st1 & Hchk & Htok). rewrite (validate_body_checked _ _ _ _ _ Hchk).
  unfold standardize_and_update. rewrite (bind_ok _ _ _ _ _ _ Htok).
  reflexivity.
Qed.

Lemma validate_body_standardized id w st params data st3 :
  standardized env id w st params data st3 ->
  validate_body env id w st =
  bind (lift (Js.get data "address"))
    (fun corrected =>
       await update <- lift (build_update corrected);
       await_ updateSugarContact env id update;
       ret (send 200 ("<h3>Address validated and updated for Contact ID: "
                      ++ id ++ "</h3>"))) w st3.
Proof.
  intros (uspsToken & st2 & Hauth & Hstd).
  rewrite (validate_body_authed _ _ _ _ _ _ Hauth).
  rewrite (bind_ok _ _ _ _ _ _ Hstd). reflexivity.
Qed.

Lemma step_fails_throws id w st e st' :
  step_fails env id w st e st' ->
  validate_body env id w st = (Throw e, st').
Proof.
  intros [e0 st1 Hc
         |params st1 e0 st2 Hchk Htok
         |params uspsToken st2 e0 st3 Hauth Hstd
         |params data st3 corrected update e0 st4 Hstd Haddr Hupd Hput].
  - unfold validate_body. now rewrite (bind_throw _ _ _ _ _ _ Hc).
  - rewrite (validate_body_checked _ _ _ _ _ Hchk).
    unfold standardize_and_update. now rewrite (bind_throw _ _ _ _ _ _ Htok).
  - rewrite (validate_body_authed _ _ _ _ _ _ Hauth).
    now rewrite (bind_throw _ _ _ _ _ _ Hstd).
  - rewrite (validate_body_standardized _ _ _ _ _ _ Hstd).
    rewrite (bind_ok _ _ _ _ _ _ (lift_inr _ _ w st3 Haddr)).
    rewrite (bind_ok _ _ _ _ _ _ (lift_inr _ _ w st3 Hupd)).
    now rewrite (bind_throw _ _ _ _ _ _ Hput).
Qed.

(** C2. A request whose [record_id] query parameter is absent or empty is
    answered with status 400 and body [Missing record_id], and the machine
    state, trace included, is the one before the request: no outbound call
    was made. *)
Theorem validate_missing_record_id (record_id : option string) w st :
  record_id = None \/ record_id = Some "" ->
  validate env record_id w st
    = (Ok {| status := 400; body := "Missing record_id" |}, st) /\
  network_calls (trace (validate env record_id w st).2)
    = network_calls (trace st).
Proof. intros [-> | ->]; split; reflexivity. Qed.

(** C3. When the fetched contact yields an empty street, city, state or
    postal code after extraction, the response is status 400 with body
    [Missing one or more required address fields]; the events of the
    request contain the CRM contact read and no postal call. *)
Theorem validate_missing_required_fields id w st contact st1 params :
  id <> "" ->
  getSugarContact env id w st = (Ok contact, st1) ->
  build_params contact = inr params ->
  Js.get params "streetAddress" = inr (JStr "") \/
  Js.get params "city" = inr (JStr "") \/
  Js.get params "state" = inr (JStr "") \/
  Js.get params "ZIPCode" = inr (JStr "") ->
  validate env (Some id) w st
    = (Ok {| status := 400;
             body := "Missing one or more required address fields" |}, st1)
  /\
  exists evs,
    trace st1 = trace st ++ evs /\
    existsb is_contact_read evs = true /\
    existsb is_postal evs = false.
Proof.
  intros Hid Hc Hp Hempty. split.
  - rewrite (validate_nonempty _ _ _ Hid). apply try_catch_ok.
    unfold validate_body. rewrite (bind_ok _ _ _ _ _ _ Hc).
    rewrite (bind_ok _ _ _ _ _ _ (lift_inr _ _ w st1 Hp)).
    apply build_params_inv in Hp.
    destruct Hp as (a & b & c & d & e & _ & _ & _ & _ & _ & ->).
    destruct (params_get (Js.or a (JStr "")) (Js.or b (JStr ""))
                (Js.or c (JStr "")) (Js.or d (JStr "")) (Js.or e (JStr "")))
      as (Ga & _ & Gc & Gd & Ge).
    rewrite Ga, Gc, Gd, Ge in Hempty.
    assert (Hm : required_missing
                   (object [ ("streetAddress", Js.or a (JStr ""));
                             ("secondaryAddress", Js.or b (JStr ""));
                             ("city", Js.or c (JStr ""));
                             ("state", Js.or d (JStr ""));
                             ("ZIPCode", Js.or e (JStr "")) ]) = inr true).
    { rewrite required_missing_params. f_equal.
      destruct Hempty as [[= ->]|[[= ->]|[[= ->]|[= ->]]]]; cbn [truthy
        truthy_string negb orb]; rewrite ?orb_true_r; reflexivity. }
    rewrite (bind_ok _ _ _ _ _ _ (lift_inr _ _ w st1 Hm)). reflexivity.
  - destruct (getSugarContact_effects _ _ _ _ _ Hc)
      as (evs & Ht & Hpostal & _ & Hread).
    exists evs. repeat split; eauto.
Qed.

(** C4. When a step after the [record_id] check fails (contact fetch, postal
    token, standardization or CRM update) with error [e], the response is
    status 500 with body
    [<h3>Address validation failed</h3><pre>{e.message}</pre>]; and when the
    failing step is the contact fetch, the events of the request contain no
    postal call and no update call. *)
Theorem validate_step_failure id w st e st' :
  id <> "" ->
  step_fails env id w st e st' ->
  validate env (Some id) w st
    = (Ok {| status := 500;
             body := "<h3>Address validation failed</h3><pre>"
                     ++ message e ++ "</pre>" |}, st')
  /\
  (getSugarContact env id w st = (Throw e, st') ->
   exists evs,
     trace st' = trace st ++ evs /\
     existsb is_postal evs = false /\
     existsb is_contact_update evs = false).
Proof.
  intros Hid Hfail. split.
  - rewrite (validate_nonempty _ _ _ Hid).
    rewrite (try_catch_throw _ _ _ _ _ _ (step_fails_throws _ _ _ _ _ Hfail)).
    reflexivity.
  - intros Hc.
    destruct (getSugarContact_effects _ _ _ _ _ Hc)
      as (evs & Ht & Hpostal & Hupd & _).
    exists evs. auto.
Qed.

(** *** The happy path *)

Lemma build_update_inv corrected update :
  build_update corrected = inr update ->
  nullish corrected = false /\
  exists street city state zip,
    Js.get corrected "streetAddressAbbreviation" = inr street /\
    Js.get corrected "city" = inr city /\
    Js.get corrected "state" = inr state /\
    Js.get corrected "ZIPCode" = inr zip /\
    update = object [ ("primary_address_street", street);
                      ("primary_address_city", city);
                      ("primary_address_state", state);
                      ("primary_address_postalcode", zip);
                      ("address_validation_status_c", JStr "Validated") ].
Proof.
  unfold build_update, Js.and_then, Js.get.
  destruct corrected; try discriminate; intros [= <-];
    (split; [reflexivity|]); do 4 eexists; repeat split; reflexivity.
Qed.

Lemma build_update_total corrected :
  nullish corrected = false ->
  exists update, build_update corrected = inr update.
Proof.
  unfold build_update, Js.and_then, Js.get.
  destruct corrected; try discriminate; intros _; eexists; reflexivity.
Qed.

Lemma update_get a b c d :
  let update := object [ ("primary_address_street", a);
                         ("primary_address_city", b);
                         ("primary_address_state", c);
                         ("primary_address_postalcode", d);
                         ("address_validation_status_c", JStr "Validated") ] in
  Js.get update "primary_address_street" = inr a /\
  Js.get update "primary_address_city" = inr b /\
  Js.get update "primary_address_state" = inr c /\
  Js.get update "primary_address_postalcode" = inr d /\
  Js.get update "address_validation_status_c" = inr (JStr "Validated").
Proof. repeat split; reflexivity. Qed.

Lemma standardized_effects id w st params data st3 :
  standardized env id w st params data st3 ->
  exists evs,
    trace st3 = trace st ++ evs /\
    existsb is_contact_update evs = false.
Proof.
  intros (uspsToken & st2 & (st1 & (contact & Hc & _ & _) & Htok) & Hstd).
  destruct (getSugarContact_effects _ _ _ _ _ Hc) as (evs & Ht1 & _ & Hu & _).
  apply getUSPSAccessToken_inv in Htok. destruct Htok as [-> _].
  apply axios_json_trace in Hstd. destruct Hstd as [_ Ht3].
  unfold log_event in Ht3; cbn [trace] in Ht3.
  rewrite Ht3, Ht1, <- !app_assoc. eexists. split; [reflexivity|].
  apply existsb_app_false; [exact Hu|reflexivity].
Qed.

(** C5. Once the standardization call has answered with an address object
    [corrected], the update object maps [corrected.streetAddressAbbreviation],
    [corrected.city], [corrected.state] and [corrected.ZIPCode] onto the four
    [primary_address_*] fields and sets [address_validation_status_c] to
    ['Validated']; when the update call succeeds, that object is the body of
    the PUT, and the response is status 200 with body
    [<h3>Address validated and updated for Contact ID: {id}</h3>]. *)
Theorem validate_success id w st params data st3 corrected :
  id <> "" ->
  standardized env id w st params data st3 ->
  Js.get data "address" = inr corrected ->
  nullish corrected = false ->
  exists update,
    build_update corrected = inr update /\
    Js.get update "primary_address_street"
      = Js.get corrected "streetAddressAbbreviation" /\
    Js.get update "primary_address_city" = Js.get corrected "city" /\
    Js.get update "primary_address_state" = Js.get corrected "state" /\
    Js.get update "primary_address_postalcode" = Js.get corrected "ZIPCode" /\
    Js.get update "address_validation_status_c" = inr (JStr "Validated") /\
    forall st4,
      updateSugarContact env id update w st3 = (Ok tt, st4) ->
      validate env (Some id) w st
        = (Ok {| status := 200;
                 body := "<h3>Address validated and updated for Contact ID: "
                         ++ id ++ "</h3>" |}, st4) /\
      exists pre tok,
        trace st4
          = trace st3 ++ pre
            ++ [PutSugarContact (contact_url env id) update tok] /\
        existsb is_contact_update pre = false.
Proof.
  intros Hid Hstd Haddr Hobj.
  destruct (build_update_total _ Hobj) as (update & Hupd).
  exists update. split; [exact Hupd|].
  destruct (build_update_inv _ _ Hupd)
    as (_ & a & b & c & d & -> & -> & -> & -> & Heq).
  rewrite Heq. destruct (update_get a b c d) as (Ga & Gb & Gc & Gd & Gs).
  repeat (split; [assumption|]). rewrite <- Heq.
  intros st4 Hput. split.
  - rewrite (validate_nonempty _ _ _ Hid). apply try_catch_ok.
    rewrite (validate_body_standardized _ _ _ _ _ _ Hstd).
    rewrite (bind_ok _ _ _ _ _ _ (lift_inr _ _ w st3 Haddr)).
    rewrite (bind_ok _ _ _ _ _ _ (lift_inr _ _ w st3 Hupd)).
    rewrite (bind_ok _ _ _ _ _ _ Hput). reflexivity.
  - exact (updateSugarContact_ok _ _ _ _ _ Hput).
Qed.

(** C10. When the standardization call answers (2xx) with a body that has
    no [address] object, a [TypeError] is thrown before the update call is
    built: the response is status 500 carrying that error's message, and
    the events of the request contain no CRM update call. *)
Theorem validate_address_absent id w st params data st3 :
  id <> "" ->
  standardized env id w st params data st3 ->
  address_absent data ->
  exists msg,
    validate_body env id w st = (Throw (TypeError msg), st3) /\
    validate env (Some id) w st
      = (Ok {| status := 500;
               body := "<h3>Address validation failed</h3><pre>"
                       ++ msg ++ "</pre>" |}, st3) /\
    exists evs,
      trace st3 = trace st ++ evs /\
      existsb is_contact_update evs = false.
Proof.
  intros Hid Hstd Habs.
  assert (Hthrow : exists msg,
             validate_body env id w st = (Throw (TypeError msg), st3)).
  { rewrite (validate_body_standardized _ _ _ _ _ _ Hstd).
    destruct (Js.get data "address") as [e|corrected] eqn:Haddr.
    - destruct data; try discriminate; inversion Haddr; subst;
        eexists; apply bind_throw; reflexivity.
    - specialize (Habs corrected Haddr).
      rewrite (bind_ok _ _ _ _ _ _ (lift_inr _ _ w st3 eq_refl)).
      destruct corrected; try discriminate; eexists;
        apply bind_throw; reflexivity. }
  destruct Hthrow as (msg & Hthrow). exists msg.
  split; [exact Hthrow|]. split.
  - rewrite (validate_nonempty _ _ _ Hid).
    rewrite (try_catch_throw _ _ _ _ _ _ Hthrow). reflexivity.
  - exact (standardized_effects _ _ _ _ _ _ Hstd).
Qed.

(** *** The trace only grows *)

Lemma grows_ret {A} (a : A) : grows (ret a).
Proof. intros w st. exists []. cbn. now rewrite app_nil_r. Qed.

Lemma grows_lift {A} (r : JsError + A) : grows (lift r).
Proof. intros w st. exists []. destruct r; cbn; now rewrite app_nil_r. Qed.

Lemma grows_bind {A B} (m : M A) (k : A -> M B) :
  grows m -> (forall a, grows (k a)) -> grows (bind m k).
Proof.
  intros Hm Hk w st. unfold bind. destruct (Hm w st) as (e1 & H1).
  destruct (m w st) as [[a|e] s]; cbn [snd] in H1.
  - destruct (Hk a w s) as (e2 & H2). exists (e1 ++ e2).
    rewrite H2, H1. now rewrite app_assoc.
  - exists e1. exact H1.
Qed.

Lemma grows_axios_json req : grows (axios_json req).
Proof.
  intros w st. exists [req]. rewrite axios_json_run.
  destruct (json_endpoint w (trace st) req); reflexivity.
Qed.

Lemma grows_getSugarAuthToken : grows (getSugarAuthToken env).
Proof.
  intros w st. destruct (getSugarAuthToken env w st) as [r st'] eqn:H.
  apply getSugarAuthToken_trace in H. destruct H as [H|H]; eauto.
Qed.

Lemma grows_updateSugarContact id data :
  grows (updateSugarContact env id data).
Proof.
  unfold updateSugarContact.
  apply grows_bind; [apply grows_getSugarAuthToken|]. intros tok.
  apply grows_bind; [apply grows_axios_json|]. intros _. apply grows_ret.
Qed.

(** From the postal token on, the first event of the request is the
    standardization call carrying [params]. *)
Lemma validate_body_sends_params id w st params uspsToken st2 :
  postal_authed env id w st params uspsToken st2 ->
  exists rest,
    trace (validate_body env id w st).2
    = trace st2 ++ standardization_request uspsToken params :: rest.
Proof.
  intros Hauth. rewrite (validate_body_authed _ _ _ _ _ _ Hauth).
  unfold bind at 1. rewrite axios_json_run.
  destruct (json_endpoint w (trace st2) _) as [e|data].
  - exists []. reflexivity.
  - match goal with
    | |- context [trace (?k (log_event ?r st2)).2] =>
        assert (Hg : exists rest,
                   trace (k (log_event r st2)).2
                   = trace (log_event r st2) ++ rest)
    end.
    { apply (grows_bind (lift (Js.get data "address"))); [apply grows_lift|].
      intros corrected. apply grows_bind; [apply grows_lift|].
      intros update. apply grows_bind; [apply grows_updateSugarContact|].
      intros _. apply grows_ret. }
    destruct Hg as (rest & Hg). exists rest. rewrite Hg.
    unfold log_event; cbn [trace]. now rewrite <- app_assoc.
Qed.

(** C6. The five parameters of the postal request are read from the CRM
    response body exactly as received, each as [contact.field || '']: a
    parameter is never [undefined] or [null], it is the empty string when the
    contact field is absent, and it is the field itself when the field is
    truthy; the object so built is the one the standardization call
    carries. *)
Theorem params_extraction id w st contact st1 params :
  getSugarContact env id w st = (Ok contact, st1) ->
  build_params contact = inr params ->
  (exists tok st0,
      st1 = log_event (GetSugarContact (contact_url env id) tok) st0 /\
      json_endpoint w (trace st0) (GetSugarContact (contact_url env id) tok)
        = inr contact)
  /\
  Forall (fun '(pkey, ckey) =>
            exists v p,
              Js.get contact ckey = inr v /\
              Js.get params pkey = inr p /\
              nullish p = false /\
              (nullish v = true -> p = JStr "") /\
              (truthy v = true -> p = v))
         address_params
  /\
  (forall uspsToken st2,
      required_missing params = inr false ->
      getUSPSAccessToken env w st1 = (Ok uspsToken, st2) ->
      exists rest,
        trace (validate_body env id w st).2
        = trace st2
          ++ GetUspsStandardization
               "https://apis-tem.usps.com/addresses/v3/address-standardization"
               ("Bearer " ++ uspsToken) "application/json" params
             :: rest).
Proof.
  intros Hc Hp. split; [|split].
  - destruct (getSugarContact_inv _ _ _ _ _ Hc)
      as [(e & He & _)|(tok & st0 & _ & Hst & Hr)]; [discriminate|].
    exists tok, st0. split; [exact Hst|].
    destruct (json_endpoint w (trace st0) _); congruence.
  - destruct (build_params_inv _ _ Hp)
      as (a & b & c & d & e & Ha & Hb & Hcity & Hd & He & ->).
    assert (Hfield : forall v,
               nullish (Js.or v (JStr "")) = false /\
               (nullish v = true -> Js.or v (JStr "") = JStr "") /\
               (truthy v = true -> Js.or v (JStr "") = v)).
    { intros v. unfold Js.or. destruct (truthy v) eqn:E.
      - split; [|split].
        + destruct v; try discriminate; reflexivity.
        + intros Hn. destruct v; discriminate.
        + reflexivity.
      - split; [reflexivity|]. split; [reflexivity|discriminate]. }
    destruct (params_get (Js.or a (JStr "")) (Js.or b (JStr ""))
                (Js.or c (JStr "")) (Js.or d (JStr "")) (Js.or e (JStr "")))
      as (Ga & Gb & Gc & Gd & Ge).
    unfold address_params.
    repeat (apply Forall_cons; split;
            [eexists; eexists; split; [eassumption|];
             split; [eassumption|apply Hfield]|]).
    apply Forall_nil. exact I.
  - intros uspsToken st2 Hm Htok.
    apply (validate_body_sends_params id w st params uspsToken st2).
    exists st1. split; [|exact Htok]. exists contact. auto.
Qed.

(** *** The write-back *)

Lemma validate_ok_200 record_id w st reply st' :
  validate env record_id w st = (Ok reply, st') ->
  status reply = 200%Z ->
  exists id params data st3 corrected update,
    record_id = Some id /\
    standardized env id w st params data st3 /\
    Js.get data "address" = inr corrected /\
    build_update corrected = inr update /\
    updateSugarContact env id update w st3 = (Ok tt, st').
Proof.
  unfold validate. destruct record_id as [id|];
    [|intros [= <- <-]; discriminate].
  destruct (truthy_string id); [|intros [= <- <-]; discriminate].
  unfold try_catch.
  destruct (validate_body env id w st) as [[r|e] s] eqn:Hb;
    [|intros [= <- <-]; discriminate].
  intros [= -> ->] Hs. unfold validate_body in Hb.
  destruct (getSugarContact env id w st) as [[contact|e] st1] eqn:Hc;
    [rewrite (bind_ok _ _ _ _ _ _ Hc) in Hb
    |rewrite (bind_throw _ _ _ _ _ _ Hc) in Hb; discriminate].
  destruct (build_params contact) as [e|params] eqn:Hp;
    [rewrite (bind_throw _ _ _ _ _ _ (lift_inl _ _ w st1 eq_refl)) in Hb;
     discriminate
    |rewrite (bind_ok _ _ _ _ _ _ (lift_inr _ _ w st1 eq_refl)) in Hb].
  destruct (required_missing params) as [e|missing] eqn:Hm;
    [rewrite (bind_throw _ _ _ _ _ _ (lift_inl _ _ w st1 eq_refl)) in Hb;
     discriminate
    |rewrite (bind_ok _ _ _ _ _ _ (lift_inr _ _ w st1 eq_refl)) in Hb].
  destruct missing; [inversion Hb; subst; discriminate|].
  unfold standardize_and_update in Hb.
  destruct (getUSPSAccessToken env w st1) as [[uspsToken|e] st2] eqn:Ht;
    [rewrite (bind_ok _ _ _ _ _ _ Ht) in Hb
    |rewrite (bind_throw _ _ _ _ _ _ Ht) in Hb; discriminate].
  destruct (axios_json (standardization_request uspsToken params) w st2)
    as [[data|e] st3] eqn:Hstd;
    [rewrite (bind_ok _ _ _ _ _ _ Hstd) in Hb
    |rewrite (bind_throw _ _ _ _ _ _ Hstd) in Hb; discriminate].
  destruct (Js.get data "address") as [e|corrected] eqn:Ha;
    [rewrite (bind_throw _ _ _ _ _ _ (lift_inl _ _ w st3 eq_refl)) in Hb;
     discriminate
    |rewrite (bind_ok _ _ _ _ _ _ (lift_inr _ _ w st3 eq_refl)) in Hb].
  destruct (build_update corrected) as [e|update] eqn:Hu;
    [rewrite (bind_throw _ _ _ _ _ _ (lift_inl _ _ w st3 eq_refl)) in Hb;
     discriminate
    |rewrite (bind_ok _ _ _ _ _ _ (lift_inr _ _ w st3 eq_refl)) in Hb].
  destruct (updateSugarContact env id update w st3) as [[[]|e] st4] eqn:Hput;
    [rewrite (bind_ok _ _ _ _ _ _ Hput) in Hb
    |rewrite (bind_throw _ _ _ _ _ _ Hput) in Hb; discriminate].
  inversion Hb; subst.
  exists id, params, data, st3, corrected, update.
  repeat split; try assumption.
  exists uspsToken, st2. split; [|exact Hstd].
  exists st1. split; [|exact Ht]. exists contact. auto.
Qed.

Lemma update_object_fields a b c d :
  let fields : gmap string JsVal :=
    list_to_map [ ("primary_address_street", a);
                  ("primary_address_city", b);
                  ("primary_address_state", c);
                  ("primary_address_postalcode", d);
                  ("address_validation_status_c", JStr "Validated") ] in
  dom fields = update_fields /\ fields !! "mailing_address_2_c" = None.
Proof.
  intros fields. split.
  - unfold fields, update_fields. rewrite dom_list_to_map_L. cbn [fmap list_fmap fst list_to_set foldr].
    set_solver.
  - reflexivity.
Qed.

(** C9. In every request answered with status 200 there is exactly one CRM
    update call, the last event of the request; its body has exactly the
    five properties [primary_address_street], [primary_address_city],
    [primary_address_state], [primary_address_postalcode] and
    [address_validation_status_c].  [mailing_address_2_c] is not among
    them, so a record updated by overwriting the properties sent keeps its
    [mailing_address_2_c]. *)
Theorem update_writes_five_fields record_id w st reply st' :
  validate env record_id w st = (Ok reply, st') ->
  status reply = 200%Z ->
  exists id evs tok fields,
    record_id = Some id /\
    trace st'
      = trace st ++ evs
        ++ [PutSugarContact (contact_url env id) (JObj fields) tok] /\
    existsb is_contact_update evs = false /\
    dom fields = update_fields /\
    fields !! "mailing_address_2_c" = None /\
    forall stored : gmap string JsVal,
      (fields ∪ stored) !! "mailing_address_2_c"
      = stored !! "mailing_address_2_c".
Proof.
  intros Hrun Hs.
  destruct (validate_ok_200 _ _ _ _ _ Hrun Hs)
    as (id & params & data & st3 & corrected & update
        & -> & Hstd & _ & Hupd & Hput).
  destruct (build_update_inv _ _ Hupd) as (_ & a & b & c & d & _ & _ & _ & _ & ->).
  destruct (standardized_effects _ _ _ _ _ _ Hstd) as (evs & Ht3 & Hnone).
  destruct (updateSugarContact_ok _ _ _ _ _ Hput) as (pre & tok & Ht4 & Hpre).
  destruct (update_object_fields a b c d) as (Hdom & Hnot).
  exists id, (evs ++ pre), tok. eexists.
  split; [reflexivity|]. split.
  { rewrite Ht4, Ht3. unfold object. now rewrite <- !app_assoc. }
  split; [now apply existsb_app_false|].
  split; [exact Hdom|]. split; [exact Hnot|].
  intros stored. now apply lookup_union_r.
Qed.

End Handler.

(** * The properties on the concrete scenarios *)

Import Scenario.

Lemma scenario_A_standardized :
  standardized env0 "123" world_A initial_state params_123
    standardization_123 st3_A.
Proof.
  exists "usps-token", st2_A. split; [|reflexivity].
  exists st1_A. split; [|reflexivity].
  exists contact_123. repeat split; reflexivity.
Defined.

Lemma getSugarAuthToken_cache_or_fetch_witness :
  getSugarAuthToken env0 world_A cached_state
    = (Ok "old-token", log_event DateNow cached_state) /\
  getSugarAuthToken env0 world_A initial_state
    = (Ok "crm-token",
       {| vars := {| cachedSugarToken := Some "crm-token";
                     sugarTokenExpiresAt :=
                       now_at world_A initial_state + 3600 |};
          trace := [DateNow; sugar_token_request env0] |}).
Proof.
  split.
  - refine (proj1 (proj1 (getSugarAuthToken_cache_or_fetch
                            env0 world_A cached_state) "old-token" _ _ _)).
    + reflexivity.
    + discriminate.
    + vm_compute. reflexivity.
  - refine (proj2 (proj2 (proj2 (getSugarAuthToken_cache_or_fetch
                                   env0 world_A initial_state) _))
              {| access_token := "crm-token"; expires_in := 3600 |} _).
    + intros (tok & H & _). discriminate H.
    + reflexivity.
Defined.

Lemma validate_missing_record_id_witness :
  validate env0 (Some "") world_A initial_state
    = (Ok {| status := 400; body := "Missing record_id" |}, initial_state) /\
  validate env0 None world_A initial_state
    = (Ok {| status := 400; body := "Missing record_id" |}, initial_state).
Proof.
  split.
  - exact (proj1 (validate_missing_record_id env0 (Some "") world_A
                    initial_state (or_intror eq_refl))).
  - exact (proj1 (validate_missing_record_id env0 None world_A
                    initial_state (or_introl eq_refl))).
Defined.

Lemma validate_missing_required_fields_witness :
  validate env0 (Some "456") world_B initial_state
    = (Ok {| status := 400;
             body := "Missing one or more required address fields" |},
       (getSugarContact env0 "456" world_B initial_state).2).
Proof.
  refine (proj1 (validate_missing_required_fields env0 "456" world_B
                   initial_state contact_456 _
                   (object [ ("streetAddress", JStr "1 Main St");
                             ("secondaryAddress", JStr "");
                             ("city", JStr "Springfield");
                             ("state", JStr "");
                             ("ZIPCode", JStr "62701") ]) _ _ _ _)).
  - discriminate.
  - reflexivity.
  - reflexivity.
  - right. right. left. reflexivity.
Defined.

Lemma validate_step_failure_witness :
  validate env0 (Some "789") world_C initial_state
    = (Ok {| status := 500;
             body := "<h3>Address validation failed</h3><pre>Request failed with status code 404</pre>" |},
       (getSugarContact env0 "789" world_C initial_state).2).
Proof.
  refine (proj1 (validate_step_failure env0 "789" world_C initial_state
                   not_found _ _ _)).
  - discriminate.
  - apply contact_fetch_fails. reflexivity.
Defined.

Lemma validate_success_witness :
  exists update,
    build_update corrected_123 = inr update /\
    Js.get update "primary_address_street"
      = inr (JStr "1600 PENNSYLVANIA AVE NW") /\
    Js.get update "address_validation_status_c" = inr (JStr "Validated") /\
    validate env0 (Some "123") world_A initial_state
      = (Ok {| status := 200;
               body := "<h3>Address validated and updated for Contact ID: 123</h3>" |},
         (updateSugarContact env0 "123" update world_A st3_A).2).
Proof.
  destruct (validate_success env0 "123" world_A initial_state params_123
              standardization_123 st3_A corrected_123)
    as (update & Hbuild & Hstreet & _ & _ & _ & Hstatus & Hrun).
  - discriminate.
  - exact scenario_A_standardized.
  - reflexivity.
  - reflexivity.
  - exists update. split; [exact Hbuild|].
    split; [rewrite Hstreet; reflexivity|]. split; [exact Hstatus|].
    injection Hbuild as <-.
    exact (proj1 (Hrun _ eq_refl)).
Defined.

Lemma params_extraction_witness :
  Forall (fun '(pkey, ckey) =>
            exists v p,
              Js.get contact_456 ckey = inr v /\
              Js.get (object [ ("streetAddress", JStr "1 Main St");
                               ("secondaryAddress", JStr "");
                               ("city", JStr "Springfield");
                               ("state", JStr "");
                               ("ZIPCode", JStr "62701") ]) pkey = inr p /\
              nullish p = false /\
              (nullish v = true -> p = JStr "") /\
              (truthy v = true -> p = v))
         address_params.
Proof.
  refine (proj1 (proj2 (params_extraction env0 "456" world_B initial_state
                          contact_456 _ _ _ _))).
  - reflexivity.
  - reflexivity.
Defined.

Lemma getSugarAuthToken_idempotent_in_window_witness :
  repeat_getSugarAuthToken env0 3 world_A cached_state
    = (Ok ["old-token"; "old-token"; "old-token"],
       {| vars := vars cached_state;
          trace := [DateNow; DateNow; DateNow] |}).
Proof.
  refine (proj1 (getSugarAuthToken_idempotent_in_window env0 world_A
                   cached_state "old-token" 3 _ _ _)).
  - reflexivity.
  - discriminate.
  - intros k Hk. destruct k as [|[|[|k]]];
      [vm_compute; reflexivity..|lia].
Defined.

Lemma getSugarAuthToken_atomic_on_error_witness :
  getSugarAuthToken env0 world_E initial_state
    = (Throw unauthorized,
       {| vars := initial_vars;
          trace := [DateNow; sugar_token_request env0] |}).
Proof.
  refine (proj1 (proj2 (getSugarAuthToken_atomic_on_error
                          env0 world_E initial_state)) unauthorized _ _).
  - intros (tok & H & _). discriminate H.
  - reflexivity.
Defined.

Lemma update_writes_five_fields_witness :
  exists id evs tok fields,
    Some "123" = Some id /\
    trace st4_A
      = trace initial_state ++ evs
        ++ [PutSugarContact (contact_url env0 id) (JObj fields) tok] /\
    existsb is_contact_update evs = false /\
    dom fields = update_fields /\
    fields !! "mailing_address_2_c" = None /\
    forall stored : gmap string JsVal,
      (fields ∪ stored) !! "mailing_address_2_c"
      = stored !! "mailing_address_2_c".
Proof.
  refine (update_writes_five_fields env0 (Some "123") world_A initial_state
            {| status := 200;
               body := "<h3>Address validated and updated for Contact ID: 123</h3>" |}
            st4_A _ _).
  - reflexivity.
  - reflexivity.
Defined.

Lemma validate_address_absent_witness :
  validate env0 (Some "123") world_D initial_state
    = (Ok {| status := 500;
             body := "<h3>Address validation failed</h3><pre>Cannot read properties of undefined (reading 'streetAddressAbbreviation')</pre>" |},
       (axios_json (standardization_request "usps-token" params_123)
          world_D st2_A).2).
Proof.
  destruct (validate_address_absent env0 "123" world_D initial_state
              params_123 (object [ ("error", JStr "no match") ])
              (axios_json (standardization_request "usps-token" params_123)
                 world_D st2_A).2)
    as (msg & Hthrow & Hrun & _).
  - discriminate.
  - exists "usps-token", st2_A. split; [|reflexivity].
    exists st1_A. split; [|reflexivity].
    exists contact_123. repeat split; reflexivity.
  - intros v [= <-]. reflexivity.
  - rewrite Hrun.
    assert (Hmsg : msg = "Cannot read properties of undefined (reading 'streetAddressAbbreviation')").
    { assert (Hfst : (validate_body env0 "123" world_D initial_state).1
                     = Throw (TypeError msg)) by (rewrite Hthrow; reflexivity).
      vm_compute in Hfst. injection Hfst as <-. reflexivity. }
    rewrite Hmsg. reflexivity.
Defined.

(** * Further properties of the token cache and of the CRM and postal calls *)

Section TokenCacheMore.

Variable env : Env.

Lemma getSugarAuthToken_ok_cached w st tok st' :
  getSugarAuthToken env w st = (Ok tok, st') ->
  cachedSugarToken (vars st') = Some tok.
Proof.
  destruct (cache_usable (vars st) (now_at w st)) eqn:Hu.
  - apply cache_usable_valid in Hu.
    destruct (getSugarAuthToken_hit_run env w st Hu) as (tok' & Hc & ->).
    intros [= <- <-]. exact Hc.
  - apply cache_usable_invalid in Hu.
    rewrite (getSugarAuthToken_miss_run env w st Hu).
    destruct (token_endpoint _ _ _); intros [= <- <-]. reflexivity.
Qed.

(** X1. Whenever [getSugarAuthToken] returns a token, that token is the
    content of [cachedSugarToken] after the call, on the cache-hit path and
    on the fetch path alike. *)
Theorem getSugarAuthToken_returns_cache_content w st tok st' :
  getSugarAuthToken env w st = (Ok tok, st') ->
  cachedSugarToken (vars st') = Some tok.
Proof. apply getSugarAuthToken_ok_cached. Qed.

(** X2. Two calls in sequence: when the first call returned a non-empty
    token and the second clock reading is before the stored expiry minus 60
    seconds, the second call returns the same token, changes no variable and
    performs no network call. *)
Theorem getSugarAuthToken_fetch_then_reuse w st tok st1 :
  getSugarAuthToken env w st = (Ok tok, st1) ->
  tok <> "" ->
  (now_at w st1 < sugarTokenExpiresAt (vars st1) - 60)%Q ->
  getSugarAuthToken env w st1 = (Ok tok, log_event DateNow st1) /\
  vars (log_event DateNow st1) = vars st1 /\
  network_calls (trace (log_event DateNow st1)) = network_calls (trace st1).
Proof.
  intros Hrun Htok Hlt. pose proof (getSugarAuthToken_ok_cached _ _ _ _ Hrun) as Hc.
  split; [|split].
  - apply getSugarAuthToken_hit; [exact Hc|].
    apply cache_usable_valid. exists tok. auto.
  - reflexivity.
  - unfold log_event. cbn [trace]. rewrite network_calls_app. cbn.
    apply app_nil_r.
Qed.


(** X6. [getUSPSAccessToken] does no caching: [n] calls in sequence that
    all succeed send [n] requests to the postal token endpoint, one per
    call, and leave the module variables untouched. *)
Theorem getUSPSAccessToken_never_cached (n : nat) w st toks st' :
  repeat_call (getUSPSAccessToken env) n w st = (Ok toks, st') ->
  trace st' = trace st ++ replicate n (usps_token_request env) /\
  vars st' = vars st /\
  length toks = n.
Proof.
  revert st toks st'. induction n as [|n IH]; intros st toks st'.
  - cbn. intros [= <- <-]. rewrite app_nil_r. auto.
  - cbn [repeat_call].
    destruct (getUSPSAccessToken env w st) as [[tok|e] s1] eqn:H1;
      [rewrite (bind_ok _ _ _ _ _ _ H1)
      |rewrite (bind_throw _ _ _ _ _ _ H1); discriminate].
    destruct (repeat_call (getUSPSAccessToken env) n w s1)
      as [[rest|e] s2] eqn:H2;
      [rewrite (bind_ok _ _ _ _ _ _ H2)
      |rewrite (bind_throw _ _ _ _ _ _ H2); discriminate].
    intros [= <- <-]. apply IH in H2. destruct H2 as (Ht & Hv & Hl).
    apply getUSPSAccessToken_inv in H1. destruct H1 as [-> _].
    unfold log_event in Ht, Hv; cbn [trace vars] in Ht, Hv.
    rewrite Ht, Hv, <- app_assoc. cbn. rewrite Hl. auto.
Qed.

(** *** Properties kept by every operation *)

Lemma keeps_ret I {A} (a : A) : keeps I (ret a).
Proof. intros w st H. exact H. Qed.

Lemma keeps_lift I {A} (r : JsError + A) : keeps I (lift r).
Proof. intros w st H. destruct r; exact H. Qed.

Lemma keeps_bind I {A B} (m : M A) (k : A -> M B) :
  keeps I m -> (forall a, keeps I (k a)) -> keeps I (bind m k).
Proof.
  intros Hm Hk w st H. unfold bind. specialize (Hm w st H).
  destruct (m w st) as [[a|e] s]; cbn [snd] in *; [now apply Hk|exact Hm].
Qed.

Lemma keeps_try_catch I {A} (m : M A) h :
  keeps I m -> (forall e, keeps I (h e)) -> keeps I (try_catch m h).
Proof.
  intros Hm Hh w st H. unfold try_catch. specialize (Hm w st H).
  destruct (m w st) as [[a|e] s]; cbn [snd] in *; [exact Hm|now apply Hh].
Qed.

Lemma keeps_axios_json I req : stable I -> keeps I (axios_json req).
Proof.
  intros HI w st H. rewrite axios_json_run.
  destruct (json_endpoint w (trace st) req); now apply HI.
Qed.

Lemma keeps_axios_token I req : stable I -> keeps I (axios_token req).
Proof.
  intros HI w st H. unfold axios_token.
  destruct (token_endpoint w (trace st) req); now apply HI.
Qed.

Lemma keeps_validate I record_id :
  stable I -> keeps I (getSugarAuthToken env) ->
  keeps I (validate env record_id).
Proof.
  intros HI Htok. unfold validate.
  destruct record_id as [id|]; [|apply keeps_ret].
  destruct (truthy_string id); [|apply keeps_ret].
  apply keeps_try_catch; [|intros e; apply keeps_ret].
  unfold validate_body, getSugarContact.
  apply keeps_bind.
  { apply keeps_bind; [exact Htok|]. intros tok.
    apply keeps_bind; [now apply keeps_axios_json|]. intros d.
    apply keeps_ret. }
  intros contact. apply keeps_bind; [apply keeps_lift|]. intros params.
  apply keeps_bind; [apply keeps_lift|]. intros [|]; [apply keeps_ret|].
  unfold standardize_and_update, getUSPSAccessToken.
  apply keeps_bind.
  { apply keeps_bind; [now apply keeps_axios_token|]. intros d.
    apply keeps_ret. }
  intros uspsToken. apply keeps_bind; [now apply keeps_axios_json|].
  intros data. apply keeps_bind; [apply keeps_lift|]. intros corrected.
  apply keeps_bind; [apply keeps_lift|]. intros update.
  apply keeps_bind; [|intros _; apply keeps_ret].
  unfold updateSugarContact. apply keeps_bind; [exact Htok|]. intros tok.
  apply keeps_bind; [now apply keeps_axios_json|]. intros _.
  apply keeps_ret.
Qed.

Lemma keeps_serve I requests :
  stable I -> keeps I (getSugarAuthToken env) -> keeps I (serve env requests).
Proof.
  intros HI Htok. induction requests as [|q rest IH]; [apply keeps_ret|].
  cbn [serve]. apply keeps_bind; [now apply keeps_validate|]. intros reply.
  apply keeps_bind; [exact IH|]. intros replies. apply keeps_ret.
Qed.

Lemma log_two_events a b st :
  {| vars := vars st; trace := trace st ++ [a; b] |}
  = log_event b (log_event a st).
Proof. unfold log_event. cbn [vars trace]. now rewrite <- app_assoc. Qed.

Lemma cache_from_one_fetch_stable : stable (cache_from_one_fetch env).
Proof.
  intros w e st [H|(pre & post & d & Ht & Hd & Hv)]; [left; exact H|].
  right. exists pre, (post ++ [e]), d. unfold log_event; cbn [vars trace].
  rewrite Ht, <- app_assoc. auto.
Qed.

Lemma cache_from_one_fetch_token :
  keeps (cache_from_one_fetch env) (getSugarAuthToken env).
Proof.
  intros w st H. destruct (cache_usable (vars st) (now_at w st)) eqn:Hu.
  - apply cache_usable_valid in Hu.
    destruct (getSugarAuthToken_hit_run env w st Hu) as (tok & _ & ->).
    now apply cache_from_one_fetch_stable.
  - apply cache_usable_invalid in Hu.
    rewrite (getSugarAuthToken_miss_run env w st Hu).
    destruct (token_endpoint w (trace st ++ [DateNow])
                (sugar_token_request env)) as [e|d] eqn:Hd; cbn [snd].
    + rewrite log_two_events.
      now do 2 apply cache_from_one_fetch_stable.
    + right. exists (trace st), [], d. cbn [vars trace]. auto.
Qed.



(** X4. Starting from the initial module variables, after any sequence of
    requests the cache is either still initial ([null], 0) or both variables
    come from one and the same answer of the CRM token endpoint: the token
    is its [access_token] and the expiry is the clock reading of that call
    plus its [expires_in]. *)
Theorem serve_cache_from_one_fetch w (requests : list (option string)) :
  cache_from_one_fetch env w (serve env requests w initial_state).2.
Proof.
  apply keeps_serve.
  - apply cache_from_one_fetch_stable.
  - apply cache_from_one_fetch_token.
  - left. reflexivity.
Qed.


(** X7. [getSugarContact] sends the contact read only after a token was
    obtained.  When [getSugarAuthToken] throws, the same error is thrown and
    no contact read is sent; when it returns a token, exactly one read is
    sent, to [{SUGAR_URL}/rest/v11_10/Contacts/{id}] with that token (the
    cached one) as [OAuth-Token], and the result is the answer of that
    read. *)
Theorem getSugarContact_after_token id w st :
  (forall e st0,
      getSugarAuthToken env w st = (Throw e, st0) ->
      getSugarContact env id w st = (Throw e, st0) /\
      exists evs, trace st0 = trace st ++ evs /\
                  existsb is_contact_read evs = false)
  /\
  (forall tok st0,
      getSugarAuthToken env w st = (Ok tok, st0) ->
      let req := GetSugarContact
                   (env_text (SUGAR_URL env) ++ "/rest/v11_10/Contacts/" ++ id)
                   tok in
      cachedSugarToken (vars st0) = Some tok /\
      getSugarContact env id w st
      = (match json_endpoint w (trace st0) req with
         | inl e => Throw e
         | inr d => Ok d
         end,
         {| vars := vars st0; trace := trace st0 ++ [req] |})).
Proof.
  split.
  - intros e st0 Htok. split.
    + unfold getSugarContact. now apply bind_throw.
    + apply getSugarAuthToken_trace in Htok.
      destruct Htok as [H|H]; eexists; (split; [exact H|reflexivity]).
  - intros tok st0 Htok req. split.
    + exact (getSugarAuthToken_ok_cached _ _ _ _ Htok).
    + unfold getSugarContact. rewrite (bind_ok _ _ _ _ _ _ Htok).
      unfold bind. rewrite axios_json_run. fold (contact_url env id).
      subst req. fold (contact_url env id).
      destruct (json_endpoint w (trace st0) _); reflexivity.
Qed.

(** X8. [updateSugarContact] sends the PUT only after a token was obtained.
    When [getSugarAuthToken] throws, the same error is thrown and no update
    is sent; when it returns a token, exactly one PUT is sent, to the
    contact's URL, with [data] unchanged as body and that token as
    [OAuth-Token]; the call throws exactly when the PUT is rejected. *)
Theorem updateSugarContact_after_token id data w st :
  (forall e st0,
      getSugarAuthToken env w st = (Throw e, st0) ->
      updateSugarContact env id data w st = (Throw e, st0) /\
      exists evs, trace st0 = trace st ++ evs /\
                  existsb is_contact_update evs = false)
  /\
  (forall tok st0,
      getSugarAuthToken env w st = (Ok tok, st0) ->
      let req := PutSugarContact
                   (env_text (SUGAR_URL env) ++ "/rest/v11_10/Contacts/" ++ id)
                   data tok in
      updateSugarContact env id data w st
      = (match json_endpoint w (trace st0) req with
         | inl e => Throw e
         | inr _ => Ok tt
         end,
         {| vars := vars st0; trace := trace st0 ++ [req] |})).
Proof.
  split.
  - intros e st0 Htok. split.
    + unfold updateSugarContact. now apply bind_throw.
    + apply getSugarAuthToken_trace in Htok.
      destruct Htok as [H|H]; eexists; (split; [exact H|reflexivity]).
  - intros tok st0 Htok req.
    unfold updateSugarContact. rewrite (bind_ok _ _ _ _ _ _ Htok).
    unfold bind. rewrite axios_json_run. subst req.
    fold (contact_url env id).
    destruct (json_endpoint w (trace st0) _); reflexivity.
Qed.

End TokenCacheMore.

(** * Further properties of the route *)

Section HandlerMore.

Variable env : Env.

Lemma or_empty_truthy v : truthy (Js.or v (JStr "")) = truthy v.
Proof. unfold Js.or. destruct (truthy v) eqn:E; [exact E|reflexivity]. Qed.

Lemma required_missing_total contact params :
  build_params contact = inr params ->
  exists b, required_missing params = inr b.
Proof.
  intros Hp. apply build_params_inv in Hp.
  destruct Hp as (a & b & c & d & e & _ & _ & _ & _ & _ & ->).
  rewrite required_missing_params. eauto.
Qed.

(** Every run of the [try] block is one of the nine cases. *)
Lemma validate_body_run id w st :
  try_block_run env id w st
    (validate_body env id w st).1 (validate_body env id w st).2.
Proof.
  unfold validate_body.
  destruct (getSugarContact env id w st) as [[contact|e] st1] eqn:Hc;
    [rewrite (bind_ok _ _ _ _ _ _ Hc)
    |rewrite (bind_throw _ _ _ _ _ _ Hc);
     exact (run_fetch_failed _ _ _ _ _ _ Hc)].
  destruct (build_params contact) as [e|params] eqn:Hp;
    [rewrite (bind_throw _ _ _ _ _ _ (lift_inl _ _ w st1 eq_refl));
     exact (run_extraction_failed _ _ _ _ _ _ _ Hc Hp)
    |rewrite (bind_ok _ _ _ _ _ _ (lift_inr _ _ w st1 eq_refl))].
  destruct (required_missing_total _ _ Hp) as (missing & Hm).
  rewrite (bind_ok _ _ _ _ _ _ (lift_inr _ _ w st1 Hm)).
  destruct missing; [exact (run_fields_missing _ _ _ _ _ _ _ Hc Hp Hm)|].
  assert (Hchk : fields_checked env id w st params st1)
    by (exists contact; auto).
  unfold standardize_and_update.
  destruct (getUSPSAccessToken env w st1) as [[uspsToken|e] st2] eqn:Ht;
    [rewrite (bind_ok _ _ _ _ _ _ Ht)
    |rewrite (bind_throw _ _ _ _ _ _ Ht);
     exact (run_postal_token_failed _ _ _ _ _ _ _ _ Hchk Ht)].
  assert (Hauth : postal_authed env id w st params uspsToken st2)
    by (exists st1; auto).
  destruct (axios_json (standardization_request uspsToken params) w st2)
    as [[data|e] st3] eqn:Hstd;
    [rewrite (bind_ok _ _ _ _ _ _ Hstd)
    |rewrite (bind_throw _ _ _ _ _ _ Hstd);
     exact (run_standardization_failed _ _ _ _ _ _ _ _ _ Hauth Hstd)].
  assert (Hstdz : standardized env id w st params data st3)
    by (exists uspsToken, st2; auto).
  destruct (Js.get data "address") as [e|corrected] eqn:Ha;
    [rewrite (bind_throw _ _ _ _ _ _ (lift_inl _ _ w st3 eq_refl));
     exact (run_body_unreadable _ _ _ _ _ _ _ _ Hstdz Ha)
    |rewrite (bind_ok _ _ _ _ _ _ (lift_inr _ _ w st3 eq_refl))].
  destruct (build_update corrected) as [e|update] eqn:Hu;
    [rewrite (bind_throw _ _ _ _ _ _ (lift_inl _ _ w st3 eq_refl));
     exact (run_address_unreadable _ _ _ _ _ _ _ _ _ Hstdz Ha Hu)
    |rewrite (bind_ok _ _ _ _ _ _ (lift_inr _ _ w st3 eq_refl))].
  destruct (updateSugarContact env id update w st3) as [[[]|e] st4] eqn:Hput;
    [rewrite (bind_ok _ _ _ _ _ _ Hput);
     exact (run_updated _ _ _ _ _ _ _ _ _ _ Hstdz Ha Hu Hput)
    |rewrite (bind_throw _ _ _ _ _ _ Hput);
     exact (run_update_failed _ _ _ _ _ _ _ _ _ _ _ Hstdz Ha Hu Hput)].
Qed.

(** *** The events of each stage *)

Lemma getSugarAuthToken_auth w st r st0 :
  getSugarAuthToken env w st = (r, st0) ->
  exists auth, auth_events env auth /\ trace st0 = trace st ++ auth.
Proof.
  intros H. apply getSugarAuthToken_trace in H. unfold auth_events.
  destruct H as [H|H]; eauto.
Qed.

Lemma getSugarContact_ok_trace id w st contact st1 :
  getSugarContact env id w st = (Ok contact, st1) ->
  exists auth tok,
    auth_events env auth /\
    trace st1 = trace st ++ auth ++ [GetSugarContact (contact_url env id) tok]
    /\ cachedSugarToken (vars st1) = Some tok.
Proof.
  intros H. apply getSugarContact_inv in H.
  destruct H as [(e & He & _)|(tok & st0 & Htok & -> & _)]; [discriminate|].
  destruct (getSugarAuthToken_auth _ _ _ _ Htok) as (auth & Hauth & Ht).
  exists auth, tok. split; [exact Hauth|].
  unfold log_event; cbn [trace vars]. rewrite Ht, <- app_assoc.
  split; [reflexivity|]. exact (getSugarAuthToken_ok_cached _ _ _ _ _ Htok).
Qed.

Lemma getSugarContact_throw_trace id w st e st1 :
  getSugarContact env id w st = (Throw e, st1) ->
  exists auth,
    auth_events env auth /\
    (trace st1 = trace st ++ auth \/
     exists tok,
       trace st1
       = trace st ++ auth ++ [GetSugarContact (contact_url env id) tok]).
Proof.
  intros H. apply getSugarContact_inv in H.
  destruct H as [(e' & _ & Htok)|(tok & st0 & Htok & -> & _)];
    destruct (getSugarAuthToken_auth _ _ _ _ Htok) as (auth & Hauth & Ht);
    exists auth; (split; [exact Hauth|]).
  - left. exact Ht.
  - right. exists tok. unfold log_event; cbn [trace].
    now rewrite Ht, <- app_assoc.
Qed.

Lemma updateSugarContact_trace id data w st r st1 :
  updateSugarContact env id data w st = (r, st1) ->
  exists auth,
    auth_events env auth /\
    ((exists e, r = Throw e) /\ trace st1 = trace st ++ auth \/
     exists tok,
       trace st1
       = trace st ++ auth ++ [PutSugarContact (contact_url env id) data tok]).
Proof.
  intros H. apply updateSugarContact_inv in H.
  destruct H as [(e & -> & Htok)|(tok & st0 & Htok & -> & _)];
    destruct (getSugarAuthToken_auth _ _ _ _ Htok) as (auth & Hauth & Ht);
    exists auth; (split; [exact Hauth|]).
  - left. eauto.
  - right. exists tok. unfold log_event; cbn [trace].
    now rewrite Ht, <- app_assoc.
Qed.

Lemma fields_checked_trace id w st params st1 :
  fields_checked env id w st params st1 ->
  exists auth tok,
    auth_events env auth /\
    trace st1 = trace st ++ auth ++ [GetSugarContact (contact_url env id) tok]
    /\ cachedSugarToken (vars st1) = Some tok.
Proof.
  intros (contact & Hc & _ & _). exact (getSugarContact_ok_trace _ _ _ _ _ Hc).
Qed.

Lemma postal_authed_trace id w st params uspsToken st2 :
  postal_authed env id w st params uspsToken st2 ->
  exists auth tok,
    auth_events env auth /\
    trace st2 = trace st ++ auth
                ++ [GetSugarContact (contact_url env id) tok;
                    usps_token_request env]
    /\ cachedSugarToken (vars st2) = Some tok.
Proof.
  intros (st1 & Hchk & Htok).
  destruct (fields_checked_trace _ _ _ _ _ Hchk) as (auth & tok & Ha & Ht & Hv).
  apply getUSPSAccessToken_inv in Htok. destruct Htok as [-> _].
  exists auth, tok. split; [exact Ha|]. unfold log_event; cbn [trace vars].
  rewrite Ht, <- !app_assoc. auto.
Qed.

Lemma standardized_trace id w st params data st3 :
  standardized env id w st params data st3 ->
  exists auth tok uspsToken,
    auth_events env auth /\
    trace st3 = trace st ++ auth
                ++ [GetSugarContact (contact_url env id) tok;
                    usps_token_request env;
                    standardization_request uspsToken params]
    /\ cachedSugarToken (vars st3) = Some tok.
Proof.
  intros (uspsToken & st2 & Hauth & Hstd).
  destruct (postal_authed_trace _ _ _ _ _ _ Hauth)
    as (auth & tok & Ha & Ht & Hv).
  apply axios_json_trace in Hstd. destruct Hstd as [Hv3 Ht3].
  exists auth, tok, uspsToken. split; [exact Ha|].
  rewrite Ht3, Ht, Hv3, <- !app_assoc. auto.
Qed.

(** *** The order of the calls of a request *)

Lemma complete_from_auth id auth :
  auth_events env auth ->
  exists rest, complete_request_events env id (auth ++ rest).
Proof.
  intros Ha. eexists. exists auth, "", "", JNull, [DateNow], JNull, "".
  split; [exact Ha|]. split; [left; reflexivity|]. reflexivity.
Qed.

Lemma complete_from_read id auth tok :
  auth_events env auth ->
  exists rest,
    complete_request_events env id
      ((auth ++ [GetSugarContact (contact_url env id) tok]) ++ rest).
Proof.
  intros Ha. eexists. exists auth, tok, "", JNull, [DateNow], JNull, "".
  split; [exact Ha|]. split; [left; reflexivity|].
  rewrite <- app_assoc. reflexivity.
Qed.

Lemma complete_from_postal_token id auth tok :
  auth_events env auth ->
  exists rest,
    complete_request_events env id
      ((auth ++ [GetSugarContact (contact_url env id) tok;
                 usps_token_request env]) ++ rest).
Proof.
  intros Ha. eexists. exists auth, tok, "", JNull, [DateNow], JNull, "".
  split; [exact Ha|]. split; [left; reflexivity|].
  rewrite <- app_assoc. reflexivity.
Qed.

Lemma complete_from_standardization id auth tok uspsToken params :
  auth_events env auth ->
  exists rest,
    complete_request_events env id
      ((auth ++ [GetSugarContact (contact_url env id) tok;
                 usps_token_request env;
                 standardization_request uspsToken params]) ++ rest).
Proof.
  intros Ha. eexists.
  exists auth, tok, uspsToken, params, [DateNow], JNull, "".
  split; [exact Ha|]. split; [left; reflexivity|].
  rewrite <- app_assoc. reflexivity.
Qed.

Lemma complete_from_update_auth id auth tok uspsToken params auth2 :
  auth_events env auth -> auth_events env auth2 ->
  exists rest,
    complete_request_events env id
      ((auth ++ [GetSugarContact (contact_url env id) tok;
                 usps_token_request env;
                 standardization_request uspsToken params] ++ auth2) ++ rest).
Proof.
  intros Ha Ha2. eexists.
  exists auth, tok, uspsToken, params, auth2, JNull, "".
  split; [exact Ha|]. split; [exact Ha2|].
  rewrite <- !app_assoc. reflexivity.
Qed.

Lemma validate_body_events id w st :
  exists evs rest,
    trace (validate_body env id w st).2 = trace st ++ evs /\
    complete_request_events env id (evs ++ rest).
Proof.
  pose proof (validate_body_run id w st) as Hrun.
  destruct (validate_body env id w st) as [r st']. cbn [fst snd] in *.
  destruct Hrun as
    [ e st1 Hc | contact st1 e Hc _ | contact st1 params Hc _ _
    | params st1 e st2 Hchk Htok
    | params uspsToken st2 e st3 Hauth Hstd
    | params data st3 e Hstdz _ | params data st3 corrected e Hstdz _ _
    | params data st3 corrected update e st4 Hstdz _ _ Hput
    | params data st3 corrected update st4 Hstdz _ _ Hput ].
  - destruct (getSugarContact_throw_trace _ _ _ _ _ Hc)
      as (auth & Ha & [Ht|(tok & Ht)]).
    + destruct (complete_from_auth id auth Ha) as (rest & Hfull). eauto.
    + destruct (complete_from_read id auth tok Ha) as (rest & Hfull). eauto.
  - destruct (getSugarContact_ok_trace _ _ _ _ _ Hc)
      as (auth & tok & Ha & Ht & _).
    destruct (complete_from_read id auth tok Ha) as (rest & Hfull). eauto.
  - destruct (getSugarContact_ok_trace _ _ _ _ _ Hc)
      as (auth & tok & Ha & Ht & _).
    destruct (complete_from_read id auth tok Ha) as (rest & Hfull). eauto.
  - destruct (fields_checked_trace _ _ _ _ _ Hchk)
      as (auth & tok & Ha & Ht & _).
    apply getUSPSAccessToken_inv in Htok. destruct Htok as [-> _].
    destruct (complete_from_postal_token id auth tok Ha) as (rest & Hfull).
    exists (auth ++ [GetSugarContact (contact_url env id) tok;
                     usps_token_request env]), rest.
    split; [|exact Hfull]. unfold log_event; cbn [trace].
    now rewrite Ht, <- !app_assoc.
  - destruct (postal_authed_trace _ _ _ _ _ _ Hauth)
      as (auth & tok & Ha & Ht & _).
    apply axios_json_trace in Hstd. destruct Hstd as [_ Ht3].
    destruct (complete_from_standardization id auth tok uspsToken params Ha)
      as (rest & Hfull).
    eexists; exists rest. split; [|exact Hfull].
    now rewrite Ht3, Ht, <- !app_assoc.
  - destruct (standardized_trace _ _ _ _ _ _ Hstdz)
      as (auth & tok & uspsToken & Ha & Ht & _).
    destruct (complete_from_standardization id auth tok uspsToken params Ha)
      as (rest & Hfull). eauto.
  - destruct (standardized_trace _ _ _ _ _ _ Hstdz)
      as (auth & tok & uspsToken & Ha & Ht & _).
    destruct (complete_from_standardization id auth tok uspsToken params Ha)
      as (rest & Hfull). eauto.
  - destruct (standardized_trace _ _ _ _ _ _ Hstdz)
      as (auth & tok & uspsToken & Ha & Ht & _).
    destruct (updateSugarContact_trace _ _ _ _ _ _ Hput)
      as (auth2 & Ha2 & [[_ Ht4]|(tok2 & Ht4)]).
    + destruct (complete_from_update_auth id auth tok uspsToken params auth2
                  Ha Ha2) as (rest & Hfull).
      eexists; exists rest. split; [|exact Hfull].
      now rewrite Ht4, Ht, <- !app_assoc.
    + eexists; exists []. split.
      * rewrite Ht4, Ht, <- !app_assoc. reflexivity.
      * rewrite app_nil_r.
        exists auth, tok, uspsToken, params, auth2, update, tok2.
        repeat split; assumption.
  - destruct (standardized_trace _ _ _ _ _ _ Hstdz)
      as (auth & tok & uspsToken & Ha & Ht & _).
    destruct (updateSugarContact_trace _ _ _ _ _ _ Hput)
      as (auth2 & Ha2 & [[(e & He) _]|(tok2 & Ht4)]); [discriminate|].
    eexists; exists []. split.
    + rewrite Ht4, Ht, <- !app_assoc. reflexivity.
    + rewrite app_nil_r.
      exists auth, tok, uspsToken, params, auth2, update, tok2.
      repeat split; assumption.
Qed.

Lemma validate_state id w st :
  id <> "" ->
  (validate env (Some id) w st).2 = (validate_body env id w st).2.
Proof.
  intros Hid. rewrite (validate_nonempty _ _ _ _ Hid). unfold try_catch.
  destruct (validate_body env id w st) as [[r|e] s]; reflexivity.
Qed.

Lemma validate_events record_id w st :
  exists evs rest,
    trace (validate env record_id w st).2 = trace st ++ evs /\
    complete_request_events env (default "" record_id) (evs ++ rest).
Proof.
  assert (Hnone : exists evs rest,
             trace st = trace st ++ evs /\
             complete_request_events env (default "" record_id) (evs ++ rest)).
  { destruct (complete_from_auth (default "" record_id) [DateNow])
      as (rest & Hfull); [left; reflexivity|].
    exists [], ([DateNow] ++ rest). rewrite app_nil_r. auto. }
  destruct record_id as [id|]; [|exact Hnone].
  destruct id as [|c id'] eqn:Eid; [exact Hnone|]. rewrite <- Eid.
  rewrite validate_state by (rewrite Eid; discriminate).
  apply validate_body_events.
Qed.

Lemma count_prefix (f : Event -> bool) evs rest :
  length (List.filter f evs) <= length (List.filter f (evs ++ rest)).
Proof. rewrite List.filter_app, length_app. lia. Qed.

Lemma complete_request_counts id full :
  complete_request_events env id full ->
  length (List.filter is_sugar_token_call full) <= 2 /\
  length (List.filter is_contact_read full) = 1 /\
  length (List.filter is_usps_token_call full) = 1 /\
  length (List.filter is_standardization_call full) = 1 /\
  length (List.filter is_contact_update full) = 1 /\
  length (network_calls full) <= 6.
Proof.
  intros (auth1 & tok1 & uspsToken & params & auth2 & update & tok2
          & Ha1 & Ha2 & ->).
  unfold network_calls.
  destruct Ha1 as [-> | ->], Ha2 as [-> | ->];
    unfold sugar_token_request, usps_token_request, standardization_request;
    cbn [app List.filter length is_sugar_token_call is_contact_read
         is_usps_token_call is_standardization_call is_contact_update
         is_network];
    repeat split; lia.
Qed.

(** X10. No call is retried: in the events of any request there is at most
    one contact read, one postal token request, one standardization call
    and one update call, at most two CRM token requests (one per use of the
    token), hence at most six network calls. *)
Theorem validate_no_retries (record_id : option string) w st :
  exists evs,
    trace (validate env record_id w st).2 = trace st ++ evs /\
    length (List.filter is_sugar_token_call evs) <= 2 /\
    length (List.filter is_contact_read evs) <= 1 /\
    length (List.filter is_usps_token_call evs) <= 1 /\
    length (List.filter is_standardization_call evs) <= 1 /\
    length (List.filter is_contact_update evs) <= 1 /\
    length (network_calls evs) <= 6.
Proof.
  destruct (validate_events record_id w st) as (evs & rest & Ht & Hfull).
  exists evs. split; [exact Ht|].
  destruct (complete_request_counts _ _ Hfull) as (H1 & H2 & H3 & H4 & H5 & H6).
  pose proof (count_prefix is_sugar_token_call evs rest).
  pose proof (count_prefix is_contact_read evs rest).
  pose proof (count_prefix is_usps_token_call evs rest).
  pose proof (count_prefix is_standardization_call evs rest).
  pose proof (count_prefix is_contact_update evs rest).
  pose proof (count_prefix is_network evs rest).
  unfold network_calls in *. repeat split; lia.
Qed.


(** X18. A request answered with status 200 performed exactly this
    sequence of effects: token events, the contact read, the postal token
    request, the standardization call with [Authorization: Bearer] followed
    by the token the postal endpoint returned, token events, and the update
    of the same contact URL. *)
Theorem validate_success_events (record_id : option string) w st reply st' :
  validate env record_id w st = (Ok reply, st') ->
  status reply = 200%Z ->
  exists id auth1 tok1 uspsToken params auth2 update tok2,
    record_id = Some id /\
    (auth1 = [DateNow] \/ auth1 = [DateNow; sugar_token_request env]) /\
    (auth2 = [DateNow] \/ auth2 = [DateNow; sugar_token_request env]) /\
    trace st'
    = trace st ++ auth1
      ++ [ GetSugarContact (contact_url env id) tok1;
           usps_token_request env;
           GetUspsStandardization
             "https://apis-tem.usps.com/addresses/v3/address-standardization"
             ("Bearer " ++ uspsToken) "application/json" params ]
      ++ auth2
      ++ [ PutSugarContact (contact_url env id) update tok2 ] /\
    exists d,
      token_endpoint w
        (trace st ++ auth1 ++ [GetSugarContact (contact_url env id) tok1])
        (usps_token_request env) = inr d /\
      uspsToken = access_token d.
Proof.
  intros Hrun Hs.
  destruct (validate_ok_200 _ _ _ _ _ _ Hrun Hs)
    as (id & params & data & st3 & corrected & update
        & -> & Hstdz & _ & _ & Hput).
  destruct Hstdz as (uspsToken & st2 & (st1 & Hchk & Htok) & Hstd).
  destruct (fields_checked_trace _ _ _ _ _ Hchk)
    as (auth1 & tok1 & Ha1 & Ht1 & _).
  destruct (getUSPSAccessToken_inv _ _ _ _ _ Htok) as [-> Hd].
  apply axios_json_trace in Hstd. destruct Hstd as [_ Ht3].
  destruct (updateSugarContact_trace _ _ _ _ _ _ Hput)
    as (auth2 & Ha2 & [[(e & He) _]|(tok2 & Ht4)]); [discriminate|].
  exists id, auth1, tok1, uspsToken, params, auth2, update, tok2.
  split; [reflexivity|]. split; [exact Ha1|]. split; [exact Ha2|]. split.
  - rewrite Ht4, Ht3. unfold log_event; cbn [trace].
    rewrite Ht1, <- !app_assoc. reflexivity.
  - rewrite <- Ht1.
    destruct (token_endpoint w (trace st1) (usps_token_request env)) as [e|d];
      [discriminate|].
    exists d. split; [reflexivity|]. congruence.
Qed.

(** *** What must have happened before a call *)

Ltac shape_has_none H :=
  repeat match goal with
         | Ha : auth_events _ _ |- _ => destruct Ha as [-> | ->]
         end;
  unfold sugar_token_request, usps_token_request,
    standardization_request in H;
  cbn [app existsb is_contact_update is_postal orb] in H;
  discriminate H.

Lemma validate_body_update_inv id w st evs :
  trace (validate_body env id w st).2 = trace st ++ evs ->
  existsb is_contact_update evs = true ->
  exists params data st3 corrected update tok,
    standardized env id w st params data st3 /\
    Js.get data "address" = inr corrected /\
    nullish corrected = false /\
    build_update corrected = inr update /\
    In (PutSugarContact (contact_url env id) update tok) evs.
Proof.
  pose proof (validate_body_run id w st) as Hrun.
  destruct (validate_body env id w st) as [r st']. cbn [fst snd] in *.
  intros Hevs Hupd.
  destruct Hrun as
    [ e st1 Hc | contact st1 e Hc _ | contact st1 params Hc _ _
    | params st1 e st2 Hchk Htok
    | params uspsToken st2 e st3 Hauth Hstd
    | params data st3 e Hstdz _ | params data st3 corrected e Hstdz _ _
    | params data st3 corrected update e st4 Hstdz Ha Hu Hput
    | params data st3 corrected update st4 Hstdz Ha Hu Hput ].
  - destruct (getSugarContact_throw_trace _ _ _ _ _ Hc)
      as (auth & Hauth & [Ht|(tok & Ht)]);
      rewrite Ht in Hevs; apply app_inv_head in Hevs; subst evs;
      shape_has_none Hupd.
  - destruct (getSugarContact_ok_trace _ _ _ _ _ Hc)
      as (auth & tok & Hauth & Ht & _).
    rewrite Ht in Hevs; apply app_inv_head in Hevs; subst evs.
    shape_has_none Hupd.
  - destruct (getSugarContact_ok_trace _ _ _ _ _ Hc)
      as (auth & tok & Hauth & Ht & _).
    rewrite Ht in Hevs; apply app_inv_head in Hevs; subst evs.
    shape_has_none Hupd.
  - destruct (fields_checked_trace _ _ _ _ _ Hchk)
      as (auth & tok & Hauth & Ht & _).
    apply getUSPSAccessToken_inv in Htok. destruct Htok as [-> _].
    unfold log_event in Hevs; cbn [trace] in Hevs.
    rewrite Ht, <- !app_assoc in Hevs.
    apply app_inv_head in Hevs; subst evs. shape_has_none Hupd.
  - destruct (postal_authed_trace _ _ _ _ _ _ Hauth)
      as (auth & tok & Ha & Ht & _).
    apply axios_json_trace in Hstd. destruct Hstd as [_ Ht3].
    rewrite Ht3, Ht, <- !app_assoc in Hevs.
    apply app_inv_head in Hevs; subst evs. shape_has_none Hupd.
  - destruct (standardized_trace _ _ _ _ _ _ Hstdz)
      as (auth & tok & uspsToken & Hauth & Ht & _).
    rewrite Ht in Hevs; apply app_inv_head in Hevs; subst evs.
    shape_has_none Hupd.
  - destruct (standardized_trace _ _ _ _ _ _ Hstdz)
      as (auth & tok & uspsToken & Hauth & Ht & _).
    rewrite Ht in Hevs; apply app_inv_head in Hevs; subst evs.
    shape_has_none Hupd.
  - destruct (standardized_trace _ _ _ _ _ _ Hstdz)
      as (auth & tok & uspsToken & Hauth & Ht & _).
    destruct (updateSugarContact_trace _ _ _ _ _ _ Hput)
      as (auth2 & Hauth2 & [[_ Ht4]|(tok2 & Ht4)]);
      rewrite Ht4, Ht, <- !app_assoc in Hevs;
      apply app_inv_head in Hevs; subst evs.
    + shape_has_none Hupd.
    + exists params, data, st3, corrected, update, tok2.
      destruct (build_update_inv _ _ Hu) as (Hn & _).
      repeat (split; [assumption|]).
      rewrite !in_app_iff. right. right. right. left. reflexivity.
  - destruct (standardized_trace _ _ _ _ _ _ Hstdz)
      as (auth & tok & uspsToken & Hauth & Ht & _).
    destruct (updateSugarContact_trace _ _ _ _ _ _ Hput)
      as (auth2 & Hauth2 & [[(e & He) _]|(tok2 & Ht4)]); [discriminate|].
    rewrite Ht4, Ht, <- !app_assoc in Hevs.
    apply app_inv_head in Hevs; subst evs.
    exists params, data, st3, corrected, update, tok2.
    destruct (build_update_inv _ _ Hu) as (Hn & _).
    repeat (split; [assumption|]).
    rewrite !in_app_iff. right. right. right. left. reflexivity.
Qed.

Lemma validate_body_postal_inv id w st evs :
  trace (validate_body env id w st).2 = trace st ++ evs ->
  existsb is_postal evs = true ->
  exists params st1, fields_checked env id w st params st1.
Proof.
  pose proof (validate_body_run id w st) as Hrun.
  destruct (validate_body env id w st) as [r st']. cbn [fst snd] in *.
  intros Hevs Hpostal.
  destruct Hrun as
    [ e st1 Hc | contact st1 e Hc _ | contact st1 params Hc _ _
    | params st1 e st2 Hchk _
    | params uspsToken st2 e st3 (st1 & Hchk & _) _
    | params data st3 e (u & s2 & (st1 & Hchk & _) & _) _
    | params data st3 corrected e (u & s2 & (st1 & Hchk & _) & _) _ _
    | params data st3 corrected update e st4
        (u & s2 & (st1 & Hchk & _) & _) _ _ _
    | params data st3 corrected update st4
        (u & s2 & (st1 & Hchk & _) & _) _ _ _ ];
    try (exists params, st1; exact Hchk).
  - destruct (getSugarContact_throw_trace _ _ _ _ _ Hc)
      as (auth & Hauth & [Ht|(tok & Ht)]);
      rewrite Ht in Hevs; apply app_inv_head in Hevs; subst evs;
      shape_has_none Hpostal.
  - destruct (getSugarContact_ok_trace _ _ _ _ _ Hc)
      as (auth & tok & Hauth & Ht & _).
    rewrite Ht in Hevs; apply app_inv_head in Hevs; subst evs.
    shape_has_none Hpostal.
  - destruct (getSugarContact_ok_trace _ _ _ _ _ Hc)
      as (auth & tok & Hauth & Ht & _).
    rewrite Ht in Hevs; apply app_inv_head in Hevs; subst evs.
    shape_has_none Hpostal.
Qed.

Lemma validate_early_return record_id w st :
  record_id = None \/ record_id = Some "" ->
  (validate env record_id w st).2 = st.
Proof. intros [-> | ->]; reflexivity. Qed.

Lemma record_id_cases (record_id : option string) :
  (record_id = None \/ record_id = Some "") \/
  exists id, record_id = Some id /\ id <> "".
Proof.
  destruct record_id as [[|c id]|]; auto.
  right. eexists. split; [reflexivity|discriminate].
Qed.

(** X11. The CRM record is written only after a successful
    standardization: if the events of a request contain an update call,
    then the required fields were present, the standardization call
    answered with a body whose [address] is neither [undefined] nor [null],
    and the body of that update call is the object built from that address. *)
Theorem validate_update_only_after_standardization
    (record_id : option string) w st evs :
  trace (validate env record_id w st).2 = trace st ++ evs ->
  existsb is_contact_update evs = true ->
  exists id params data st3 corrected update tok,
    record_id = Some id /\
    standardized env id w st params data st3 /\
    Js.get data "address" = inr corrected /\
    nullish corrected = false /\
    build_update corrected = inr update /\
    In (PutSugarContact (contact_url env id) update tok) evs.
Proof.
  intros Hevs Hupd.
  destruct (record_id_cases record_id) as [Hearly|(id & -> & Hid)].
  - rewrite (validate_early_return _ _ _ Hearly) in Hevs.
    rewrite <- (app_nil_r (trace st)) in Hevs at 1.
    apply app_inv_head in Hevs. subst evs. discriminate.
  - rewrite (validate_state _ _ _ Hid) in Hevs.
    destruct (validate_body_update_inv _ _ _ _ Hevs Hupd)
      as (params & data & st3 & corrected & update & tok & H).
    exists id, params, data, st3, corrected, update, tok. auto.
Qed.

(** X12. The postal service is called only for complete addresses: if the
    events of a request contain a postal call (token or standardization),
    then the contact was fetched and its street, city, state and postal
    code passed the check of line 97. *)
Theorem validate_postal_only_after_check (record_id : option string) w st evs :
  trace (validate env record_id w st).2 = trace st ++ evs ->
  existsb is_postal evs = true ->
  exists id contact st1 params,
    record_id = Some id /\
    getSugarContact env id w st = (Ok contact, st1) /\
    build_params contact = inr params /\
    required_missing params = inr false.
Proof.
  intros Hevs Hpostal.
  destruct (record_id_cases record_id) as [Hearly|(id & -> & Hid)].
  - rewrite (validate_early_return _ _ _ Hearly) in Hevs.
    rewrite <- (app_nil_r (trace st)) in Hevs at 1.
    apply app_inv_head in Hevs. subst evs. discriminate.
  - rewrite (validate_state _ _ _ Hid) in Hevs.
    destruct (validate_body_postal_inv _ _ _ _ Hevs Hpostal)
      as (params & st1 & contact & Hc & Hp & Hm).
    exists id, contact, st1, params. auto.
Qed.

(** X9. The route always answers and never throws: every request gets
    exactly one of four responses, 400 [Missing record_id], 400 [Missing one
    or more required address fields], 200 with the success body for the
    given id, or 500 with the failure body around an error message. *)
Theorem validate_always_responds (record_id : option string) w st :
  exists reply,
    (validate env record_id w st).1 = Ok reply /\
    (reply = {| status := 400; body := "Missing record_id" |} \/
     reply = {| status := 400;
                body := "Missing one or more required address fields" |} \/
     (exists id,
         record_id = Some id /\
         reply = {| status := 200;
                    body := "<h3>Address validated and updated for Contact ID: "
                            ++ id ++ "</h3>" |}) \/
     exists msg,
       reply = {| status := 500;
                  body := "<h3>Address validation failed</h3><pre>"
                          ++ msg ++ "</pre>" |}).
Proof.
  destruct (record_id_cases record_id) as [[-> | ->]|(id & -> & Hid)].
  - eexists. split; [reflexivity|]. left. reflexivity.
  - eexists. split; [reflexivity|]. left. reflexivity.
  - rewrite (validate_nonempty _ _ _ _ Hid). unfold try_catch.
    pose proof (validate_body_run id w st) as Hrun.
    destruct (validate_body env id w st) as [[r|e] s]; cbn [fst snd] in *.
    + exists r. split; [reflexivity|].
      inversion Hrun; subst.
      * right. left. reflexivity.
      * right. right. left. exists id. split; reflexivity.
    + eexists. split; [reflexivity|]. right. right. right.
      exists (message e). reflexivity.
Qed.

(** *** Edge cases of the contact body and of the configuration *)

(** X13. The check of line 97 passes exactly when the contact's street,
    city, state and postal code are all truthy; the secondary address plays
    no part in it. *)
Theorem required_fields_check contact params street city state zip :
  build_params contact = inr params ->
  Js.get contact "primary_address_street" = inr street ->
  Js.get contact "primary_address_city" = inr city ->
  Js.get contact "primary_address_state" = inr state ->
  Js.get contact "primary_address_postalcode" = inr zip ->
  required_missing params
  = inr (negb (truthy street && truthy city && truthy state && truthy zip)).
Proof.
  intros Hp Hs Hc Hst Hz. apply build_params_inv in Hp.
  destruct Hp as (a & b & c & d & e & Ha & _ & Hc' & Hd & He & ->).
  rewrite Hs in Ha. rewrite Hc in Hc'. rewrite Hst in Hd. rewrite Hz in He.
  injection Ha as <-. injection Hc' as <-. injection Hd as <-.
  injection He as <-.
  rewrite required_missing_params, !or_empty_truthy.
  destruct (truthy street), (truthy city), (truthy state), (truthy zip);
    reflexivity.
Qed.

(** X14. When the CRM answers the contact read with a body that is [null]
    or [undefined], the first property read throws a [TypeError]: the
    response is status 500 carrying that error's message, not 400, and the
    request makes no postal call and no update call. *)
Theorem validate_nullish_contact id w st contact st1 :
  id <> "" ->
  getSugarContact env id w st = (Ok contact, st1) ->
  nullish contact = true ->
  validate env (Some id) w st
    = (Ok {| status := 500;
             body := "<h3>Address validation failed</h3><pre>"
                     ++ message (read_error contact "primary_address_street")
                     ++ "</pre>" |}, st1)
  /\
  exists evs,
    trace st1 = trace st ++ evs /\
    existsb is_postal evs = false /\
    existsb is_contact_update evs = false.
Proof.
  intros Hid Hc Hn. split.
  - rewrite (validate_nonempty _ _ _ _ Hid).
    assert (Hthrow : validate_body env id w st
                     = (Throw (read_error contact "primary_address_street"),
                        st1)).
    { unfold validate_body. rewrite (bind_ok _ _ _ _ _ _ Hc).
      apply bind_throw. apply lift_inl.
      destruct contact; try discriminate; reflexivity. }
    rewrite (try_catch_throw _ _ _ _ _ _ Hthrow). reflexivity.
  - destruct (getSugarContact_effects _ _ _ _ _ _ Hc)
      as (evs & Ht & Hp & Hu & _).
    exists evs. auto.
Qed.

(** X15. When the CRM answers the contact read with a body that is not an
    object (a string, a number, a boolean or an array), every field reads as
    [undefined], so the response is 400 [Missing one or more required address
    fields] and no postal call is made. *)
Theorem validate_non_object_contact id w st contact st1 :
  id <> "" ->
  getSugarContact env id w st = (Ok contact, st1) ->
  match contact with
  | JBool _ | JNum _ | JStr _ | JArr _ => True
  | JUndefined | JNull | JObj _ => False
  end ->
  validate env (Some id) w st
    = (Ok {| status := 400;
             body := "Missing one or more required address fields" |}, st1)
  /\
  exists evs,
    trace st1 = trace st ++ evs /\ existsb is_postal evs = false.
Proof.
  intros Hid Hc Hshape. split.
  - rewrite (validate_nonempty _ _ _ _ Hid). apply try_catch_ok.
    unfold validate_body. rewrite (bind_ok _ _ _ _ _ _ Hc).
    assert (Hp : build_params contact
                 = inr (object [ ("streetAddress", JStr "");
                                 ("secondaryAddress", JStr "");
                                 ("city", JStr "");
                                 ("state", JStr "");
                                 ("ZIPCode", JStr "") ]))
      by (destruct contact; try contradiction; reflexivity).
    rewrite (bind_ok _ _ _ _ _ _ (lift_inr _ _ w st1 Hp)).
    rewrite (bind_ok _ _ _ _ _ _
               (lift_inr _ _ w st1 (required_missing_params _ _ _ _ _))).
    reflexivity.
  - destruct (getSugarContact_effects _ _ _ _ _ _ Hc)
      as (evs & Ht & Hp & _ & _).
    exists evs. auto.
Qed.

(** X16. The body of the CRM token request: [grant_type] is ['password'],
    [client_id] is ['sugar'], [client_secret] is the empty string, and
    [platform] is [SUGAR_PLATFORM] when that variable is set and non-empty,
    ['custom_api'] when it is unset or empty. *)
Theorem sugar_token_body_contents :
  Js.get (sugar_token_body env) "grant_type" = inr (JStr "password") /\
  Js.get (sugar_token_body env) "client_id" = inr (JStr "sugar") /\
  Js.get (sugar_token_body env) "client_secret" = inr (JStr "") /\
  Js.get (sugar_token_body env) "platform"
  = inr (JStr (match SUGAR_PLATFORM env with
               | Some (String c p) => String c p
               | Some EmptyString | None => "custom_api"
               end)).
Proof.
  repeat split; try reflexivity.
  unfold sugar_token_body.
  change (Js.get
            (object
               [("grant_type", JStr "password"); ("client_id", JStr "sugar");
                ("client_secret", JStr "");
                ("username", env_val (SUGAR_USERNAME env));
                ("password", env_val (SUGAR_PASSWORD env));
                ("platform",
                 Js.or (env_val (SUGAR_PLATFORM env)) (JStr "custom_api"))])
            "platform")
    with (@inr JsError JsVal
            (Js.or (env_val (SUGAR_PLATFORM env)) (JStr "custom_api"))).
  destruct (SUGAR_PLATFORM env) as [[|c p]|]; reflexivity.
Qed.

(** X19. Within one request the token is fetched once when it lasts: after
    the standardization call the cache still holds the token that was sent
    with the contact read, and when that token is non-empty and the clock is
    before its expiry minus 60 seconds, [updateSugarContact] sends the PUT
    with the same token and without a token request. *)
Theorem validate_update_reuses_token id w st params data st3 update :
  standardized env id w st params data st3 ->
  exists tok,
    cachedSugarToken (vars st3) = Some tok /\
    In (GetSugarContact (contact_url env id) tok)
       (drop (length (trace st)) (trace st3)) /\
    (tok <> "" ->
     (now_at w st3 < sugarTokenExpiresAt (vars st3) - 60)%Q ->
     let put := PutSugarContact (contact_url env id) update tok in
     updateSugarContact env id update w st3
     = (match json_endpoint w (trace st3 ++ [DateNow]) put with
        | inl e => Throw e
        | inr _ => Ok tt
        end,
        {| vars := vars st3; trace := trace st3 ++ [DateNow; put] |})).
Proof.
  intros Hstdz.
  destruct (standardized_trace _ _ _ _ _ _ Hstdz)
    as (auth & tok & uspsToken & Hauth & Ht & Hv).
  exists tok. split; [exact Hv|]. split.
  - rewrite Ht, drop_app_length, in_app_iff. right. left. reflexivity.
  - intros Htok Hlt put.
    assert (Hhit : getSugarAuthToken env w st3
                   = (Ok tok, log_event DateNow st3)).
    { apply getSugarAuthToken_hit; [exact Hv|].
      apply cache_usable_valid. exists tok. auto. }
    unfold updateSugarContact. rewrite (bind_ok _ _ _ _ _ _ Hhit).
    unfold bind. rewrite axios_json_run. fold put.
    unfold log_event; cbn [trace vars]. rewrite <- app_assoc.
    destruct (json_endpoint w (trace st3 ++ [DateNow]) put); reflexivity.
Qed.

End HandlerMore.

(** * The further properties on concrete scenarios *)

Import Edge.

Lemma getSugarAuthToken_returns_cache_content_witness :
  cachedSugarToken (vars fetched_A) = Some "crm-token".
Proof.
  exact (getSugarAuthToken_returns_cache_content env0 world_A initial_state
           "crm-token" fetched_A eq_refl).
Defined.

Lemma getSugarAuthToken_fetch_then_reuse_witness :
  getSugarAuthToken env0 world_A fetched_A
    = (Ok "crm-token", log_event DateNow fetched_A).
Proof.
  refine (proj1 (getSugarAuthToken_fetch_then_reuse env0 world_A initial_state
                   "crm-token" fetched_A _ _ _)).
  - reflexivity.
  - discriminate.
  - vm_compute. reflexivity.
Defined.



Lemma getUSPSAccessToken_never_cached_witness :
  trace (repeat_call (getUSPSAccessToken env0) 2 world_A initial_state).2
    = [usps_token_request env0; usps_token_request env0].
Proof.
  refine (proj1 (getUSPSAccessToken_never_cached env0 2 world_A initial_state
                   ["usps-token"; "usps-token"] _ _)).
  reflexivity.
Defined.

Lemma getSugarContact_after_token_witness :
  getSugarContact env0 "123" world_E initial_state
    = (Throw unauthorized,
       (getSugarAuthToken env0 world_E initial_state).2) /\
  getSugarContact env0 "123" world_A initial_state
    = (Ok contact_123,
       {| vars := vars fetched_A;
          trace := trace fetched_A
                   ++ [GetSugarContact
                         "https://crm.example/rest/v11_10/Contacts/123"
                         "crm-token"] |}).
Proof.
  split.
  - refine (proj1 (proj1 (getSugarContact_after_token env0 "123" world_E
                            initial_state) unauthorized _ _)).
    reflexivity.
  - refine (proj2 (proj2 (getSugarContact_after_token env0 "123" world_A
                            initial_state) "crm-token" fetched_A _)).
    reflexivity.
Defined.

Lemma updateSugarContact_after_token_witness :
  updateSugarContact env0 "123" update_123 world_E initial_state
    = (Throw unauthorized,
       (getSugarAuthToken env0 world_E initial_state).2) /\
  updateSugarContact env0 "123" update_123 world_A initial_state
    = (Ok tt,
       {| vars := vars fetched_A;
          trace := trace fetched_A
                   ++ [PutSugarContact
                         "https://crm.example/rest/v11_10/Contacts/123"
                         update_123 "crm-token"] |}).
Proof.
  split.
  - refine (proj1 (proj1 (updateSugarContact_after_token env0 "123" update_123
                            world_E initial_state) unauthorized _ _)).
    reflexivity.
  - refine (proj2 (updateSugarContact_after_token env0 "123" update_123
                     world_A initial_state) "crm-token" fetched_A _).
    reflexivity.
Defined.

Lemma validate_update_only_after_standardization_witness :
  exists id params data st3 corrected update tok,
    Some "123" = Some id /\
    standardized env0 id world_A initial_state params data st3 /\
    Js.get data "address" = inr corrected /\
    nullish corrected = false /\
    build_update corrected = inr update /\
    In (PutSugarContact (contact_url env0 id) update tok) (trace st4_A).
Proof.
  refine (validate_update_only_after_standardization env0 (Some "123") world_A
            initial_state (trace st4_A) _ _).
  - reflexivity.
  - reflexivity.
Defined.

Lemma validate_postal_only_after_check_witness :
  exists id contact st1 params,
    Some "123" = Some id /\
    getSugarContact env0 id world_A initial_state = (Ok contact, st1) /\
    build_params contact = inr params /\
    required_missing params = inr false.
Proof.
  refine (validate_postal_only_after_check env0 (Some "123") world_A
            initial_state (trace st4_A) _ _).
  - reflexivity.
  - reflexivity.
Defined.

Lemma validate_success_events_witness :
  exists id auth1 tok1 uspsToken params auth2 update tok2,
    Some "123" = Some id /\
    (auth1 = [DateNow] \/ auth1 = [DateNow; sugar_token_request env0]) /\
    (auth2 = [DateNow] \/ auth2 = [DateNow; sugar_token_request env0]) /\
    trace st4_A
    = trace initial_state ++ auth1
      ++ [ GetSugarContact (contact_url env0 id) tok1;
           usps_token_request env0;
           GetUspsStandardization
             "https://apis-tem.usps.com/addresses/v3/address-standardization"
             ("Bearer " ++ uspsToken) "application/json" params ]
      ++ auth2
      ++ [ PutSugarContact (contact_url env0 id) update tok2 ] /\
    exists d,
      token_endpoint world_A
        (trace initial_state ++ auth1
         ++ [GetSugarContact (contact_url env0 id) tok1])
        (usps_token_request env0) = inr d /\
      uspsToken = access_token d.
Proof.
  refine (validate_success_events env0 (Some "123") world_A initial_state
            {| status := 200;
               body := "<h3>Address validated and updated for Contact ID: 123</h3>" |}
            st4_A _ _).
  - reflexivity.
  - reflexivity.
Defined.

Lemma required_fields_check_witness :
  required_missing
    (object [ ("streetAddress", JStr "1 Main St");
              ("secondaryAddress", JStr "");
              ("city", JStr "Springfield");
              ("state", JStr "");
              ("ZIPCode", JStr "62701") ])
  = inr true.
Proof.
  exact (required_fields_check contact_456 _ (JStr "1 Main St")
           (JStr "Springfield") (JStr "") (JStr "62701")
           eq_refl eq_refl eq_refl eq_refl eq_refl).
Defined.

Lemma validate_nullish_contact_witness :
  validate env0 (Some "123") world_null_contact initial_state
    = (Ok {| status := 500;
             body := "<h3>Address validation failed</h3><pre>Cannot read properties of null (reading 'primary_address_street')</pre>" |},
       (getSugarContact env0 "123" world_null_contact initial_state).2).
Proof.
  refine (proj1 (validate_nullish_contact env0 "123" world_null_contact
                   initial_state JNull _ _ _ _)).
  - discriminate.
  - reflexivity.
  - reflexivity.
Defined.

Lemma validate_non_object_contact_witness :
  validate env0 (Some "123") world_text_contact initial_state
    = (Ok {| status := 400;
             body := "Missing one or more required address fields" |},
       (getSugarContact env0 "123" world_text_contact initial_state).2).
Proof.
  refine (proj1 (validate_non_object_contact env0 "123" world_text_contact
                   initial_state (JStr "<html>maintenance</html>") _ _ _ _)).
  - discriminate.
  - reflexivity.
  - exact I.
Defined.

Lemma validate_update_reuses_token_witness :
  updateSugarContact env0 "123" update_123 world_A st3_A
    = (Ok tt,
       {| vars := vars st3_A;
          trace := trace st3_A
                   ++ [DateNow;
                       PutSugarContact (contact_url env0 "123") update_123
                         "crm-token"] |}).
Proof.
  destruct (validate_update_reuses_token env0 "123" world_A initial_state
              params_123 standardization_123 st3_A update_123
              scenario_A_standardized) as (tok & Hc & _ & Hput).
  assert (Htok : tok = "crm-token") by (vm_compute in Hc; congruence).
  subst tok. apply Hput.
  - discriminate.
  - vm_compute. reflexivity.
Defined.
